(** * Forced photometry: cutouts, the optimisation loop and the result reader

    A shallow embedding of [code/photometry.py].

    - Python floats (and numpy float64 scalars) are the kernel's binary64
      floats, so [np.sqrt], [*], [<] and [np.nan] are the IEEE operations.
    - A Python call that may raise returns a [result]; a function that calls
      collaborators returns, besides its result, the trace of the calls it
      made, in order.
    - The collaborators that live outside this file of the repository
      ([fits.open], [WCS], [extract_cutout], [find_nconfsources],
      [sigma_clipped_stats], the tractor optimiser) are parameters, and so
      is the outcome of opening the null device.
    - The file decorates [suppress_stdout] with [contextmanager] without
      importing it; the name is read as [contextlib.contextmanager].  The
      warning filters change what is printed, not what is computed, and are
      left out. *)

From Stdlib Require Import ZArith List String Bool Lia.
From Stdlib Require Import Floats.PrimFloat Floats.SpecFloat Floats.FloatOps Floats.FloatAxioms.
Import ListNotations.

Set Implicit Arguments.

(* ================================================================== *)
(** ** Python values, exceptions and the trace monad *)

Module Py.

(** The exception classes that matter here.  The last three derive from
    [BaseException] only; all the others derive from [Exception]. *)
Inductive exn : Type :=
| ValueError
| IndexError
| TypeError
| UnboundLocalError
| OSError
| ArithmeticError
| LinAlgError
| RuntimeError
| CutoutError
| KeyboardInterrupt
| SystemExit
| GeneratorExit.

(** [isinstance(e, Exception)] *)
Definition isinstance_Exception (e : exn) : bool :=
  match e with
  | KeyboardInterrupt | SystemExit | GeneratorExit => false
  | _ => true
  end.

Inductive result (A : Type) : Type :=
| Ok (a : A)
| Raise (e : exn).
Arguments Raise {A} e.

(** A computation: the calls it made, then how it ended. *)
Definition M (E A : Type) : Type := (list E * result A)%type.

Definition ret {E A} (a : A) : M E A := ([], Ok a).
Definition raise {E A} (e : exn) : M E A := ([], Raise e).
Definition lift {E A} (r : result A) : M E A := ([], r).
Definition emit {E} (ev : E) : M E unit := ([ev], Ok tt).

Definition bind {E A B} (m : M E A) (k : A -> M E B) : M E B :=
  match m with
  | (t, Ok a) => let (t', r) := k a in (t ++ t', r)
  | (t, Raise e) => (t, Raise e)
  end.

(** [try: body / except Exception: handler] *)
Definition try_except_Exception {E A} (body : M E A) (handler : M E A) : M E A :=
  match body with
  | (t, Ok a) => (t, Ok a)
  | (t, Raise e) =>
      if isinstance_Exception e
      then let (t', r) := handler in (t ++ t', r)
      else (t, Raise e)
  end.

(** [try: body / finally: cleanup], with a cleanup that cannot raise. *)
Definition try_finally {E A} (body : M E A) (cleanup : list E) : M E A :=
  let (t, r) := body in (t ++ cleanup, r).

Definition trace {E A} (m : M E A) : list E := fst m.
Definition outcome {E A} (m : M E A) : result A := snd m.

(** [l[i]] on a list or a one-dimensional array, with Python's negative
    indices. *)
Definition getitem {A} (l : list A) (i : Z) : result A :=
  let n := Z.of_nat (List.length l) in
  let j := if (i <? 0)%Z then (i + n)%Z else i in
  if ((0 <=? j) && (j <? n))%Z
  then match nth_error l (Z.to_nat j) with
       | Some a => Ok a
       | None => Raise IndexError
       end
  else Raise IndexError.

(** [l.index(x)]: the first position of [x], [ValueError] when absent. *)
Fixpoint index_from (l : list string) (x : string) (k : Z) : result Z :=
  match l with
  | [] => Raise ValueError
  | y :: l' => if String.eqb y x then Ok k else index_from l' x (k + 1)
  end.

Definition list_index (l : list string) (x : string) : result Z := index_from l x 0.

(** What the variance argument can be: [None], a Python float such as
    [np.nan], a numpy scalar (an [np.float64] or a zero-dimensional array),
    or a one-dimensional array. *)
Inductive value : Type :=
| None_
| Scalar (x : float)
| NpScalar (x : float)
| Array (v : list float).

(** [v[i]] on such a value: [None] and a Python float are not
    subscriptable ([TypeError]); a numpy scalar has no axis to index
    ([IndexError]). *)
Definition subscript (v : value) (i : Z) : result float :=
  match v with
  | Array a => getitem a i
  | NpScalar _ => Raise IndexError
  | None_ | Scalar _ => Raise TypeError
  end.

End Py.

Import Py.

Declare Scope py_scope.
Delimit Scope py_scope with py.
Notation "x <- m ;; k" := (bind m (fun x => k))
  (at level 100, m at next level, right associativity) : py_scope.
Notation "' p <- m ;; k" := (bind m (fun v => match v with p => k end))
  (at level 100, p pattern, m at next level, right associativity) : py_scope.
Notation "m ;;; k" := (bind m (fun _ => k))
  (at level 100, right associativity) : py_scope.

(** [1e-3] as Python reads it: the nearest binary64 value. *)
Definition dlnp_tol : float := 0x1.0624dd2f1a9fcp-10%float.

(* ================================================================== *)
(** ** [interpret_tractor_results] *)

Module Results.

(** What the function uses of a tractor source: its parameter names and
    its parameter values. *)
Record Source : Type := {
  getParamNames : list string;
  getParams : list float
}.

(** The reads of a source's parameters; the argument is the position of
    the source in [objsrc]. *)
Inductive event : Type :=
| GetParamNames (src : Z)
| GetParams (src : Z).

Local Open Scope py_scope.

Definition interpret_tractor_results
    (flux_var : value) (flux_conv : float) (fit_fail : bool)
    (objsrc : list Source) (nconfsrcs : Z) : M event (float * float) :=
  if fit_fail then
    ret (nan, nan)
  else
    match flux_var with
    | None_ =>
        s <- lift (getitem objsrc 0) ;;
        emit (GetParamNames 0) ;;;
        let params_list := getParamNames s in
        bindex <- lift (list_index params_list "brightness.Flux") ;;
        s' <- lift (getitem objsrc 0) ;;
        emit (GetParams 0) ;;;
        flux <- lift (getitem (getParams s') bindex) ;;
        let microJy_flux := (flux * flux_conv)%float in
        ret (microJy_flux, nan)
    | _ =>
        s <- lift (getitem objsrc 0) ;;
        emit (GetParamNames 0) ;;;
        let params_list := getParamNames s in
        bindex <- lift (list_index params_list "brightness.Flux") ;;
        s' <- lift (getitem objsrc 0) ;;
        emit (GetParams 0) ;;;
        flux <- lift (getitem (getParams s') bindex) ;;
        let fv := ((nconfsrcs + 1) * 3 - 1)%Z in
        x <- lift (subscript flux_var fv) ;;
        let tractor_std := sqrt x in
        let microJy_flux := (flux * flux_conv)%float in
        let microJy_unc := (tractor_std * flux_conv)%float in
        ret (microJy_flux, microJy_unc)
    end.

End Results.

(* ================================================================== *)
(** ** [make_cutouts] and [setup_for_tractor] *)

Module Cutouts.

(** The calls to collaborators, in the order they are made. *)
Inductive event (HDU Wcs Cutout : Type) : Type :=
| FitsOpen (path : string)
| ReadWCS (hdu : HDU)
| ExtractCutout (hdu : HDU) (wcs : Wcs)
| FindNconfsources
| SigmaClippedStats (bg : Cutout).
Arguments FitsOpen {HDU Wcs Cutout} path.
Arguments ReadWCS {HDU Wcs Cutout} hdu.
Arguments ExtractCutout {HDU Wcs Cutout} hdu wcs.
Arguments FindNconfsources {HDU Wcs Cutout}.
Arguments SigmaClippedStats {HDU Wcs Cutout} bg.

(** How many cutout extractions a trace holds. *)
Fixpoint extractions {HDU Wcs Cutout} (t : list (event HDU Wcs Cutout)) : nat :=
  match t with
  | [] => 0
  | ExtractCutout _ _ :: t' => S (extractions t')
  | _ :: t' => extractions t'
  end.

(** How many files a trace opens, and how many WCS it reads. *)
Fixpoint opens {HDU Wcs Cutout} (t : list (event HDU Wcs Cutout)) : nat :=
  match t with
  | [] => 0
  | FitsOpen _ :: t' => S (opens t')
  | _ :: t' => opens t'
  end.

Fixpoint wcs_reads {HDU Wcs Cutout} (t : list (event HDU Wcs Cutout)) : nat :=
  match t with
  | [] => 0
  | ReadWCS _ :: t' => S (wcs_reads t')
  | _ :: t' => wcs_reads t'
  end.

(** The two fields of [band_configs] that are read. *)
Record BandConfigs : Type := {
  cutout_width : Z;
  mosaic_pix_scale : float
}.

Section Collaborators.

Variables HDU Wcs Cutout Offset Sources SType Catalog : Type.

(** [fits.open(path)[0]] *)
Variable fits_open : string -> result HDU.
(** [WCS(hdu)] *)
Variable WCS : HDU -> result Wcs.
(** [extract_cutout(ra, dec, cutout_width, mosaic_pix_scale, hdulist, wcs_info)]:
    the cutout, the no-data flag (a Python [bool]), the offsets and the
    local WCS. *)
Variable extract_cutout :
  float -> float -> Z -> float -> HDU -> Wcs ->
  result (Cutout * bool * Offset * Offset * Wcs).
(** [find_nconfsources(ra, dec, stype, ks_flux_aper2, x1, y1, cutout_width, subimage_wcs, df)] *)
Variable find_nconfsources :
  float -> float -> SType -> float -> Offset -> Offset -> Z -> Wcs -> Catalog ->
  result (Sources * Z).
(** [sigma_clipped_stats(data, sigma=...)]: mean, median, standard deviation. *)
Variable sigma_clipped_stats : Cutout -> float -> result (float * float * float).

Local Abbreviation ev := (event HDU Wcs Cutout).
Local Open Scope py_scope.

Definition make_cutouts
    (ra dec : float) (infiles : string * string)
    (cutout_width : Z) (mosaic_pix_scale : float)
  : M ev (Cutout * Offset * Offset * Wcs * Cutout) :=
  let (imgfile, skybgfile) := infiles in
  emit (FitsOpen imgfile) ;;;
  hdulist <- lift (fits_open imgfile) ;;
  emit (ReadWCS hdulist) ;;;
  wcs_info <- lift (WCS hdulist) ;;
  emit (ExtractCutout hdulist wcs_info) ;;;
  '(subimage, nodata_param, x1, y1, subimage_wcs) <-
    lift (extract_cutout ra dec cutout_width mosaic_pix_scale hdulist wcs_info) ;;
  if nodata_param then
    raise CutoutError
  else if String.eqb skybgfile imgfile then
    ret (subimage, x1, y1, subimage_wcs, subimage)
  else
    emit (FitsOpen skybgfile) ;;;
    bkg_hdulist <- lift (fits_open skybgfile) ;;
    emit (ExtractCutout bkg_hdulist wcs_info) ;;;
    '(bgsubimage, bgnodata_param, bgx1, bgy1, bgimage_wcs) <-
      lift (extract_cutout ra dec cutout_width mosaic_pix_scale bkg_hdulist wcs_info) ;;
    if bgnodata_param then
      raise CutoutError
    else
      ret (subimage, x1, y1, subimage_wcs, bgsubimage).

Definition setup_for_tractor
    (band_configs : BandConfigs) (ra dec : float) (stype : SType)
    (ks_flux_aper2 : float) (infiles : string * string) (df : Catalog)
  : M ev (Cutout * Sources * Z * float * float) :=
  '(subimage, x1, y1, subimage_wcs, bgsubimage) <-
    make_cutouts ra dec infiles
      (cutout_width band_configs) (mosaic_pix_scale band_configs) ;;
  emit FindNconfsources ;;;
  '(objsrc, nconfsrcs) <-
    lift (find_nconfsources ra dec stype ks_flux_aper2 x1 y1
            (cutout_width band_configs) subimage_wcs df) ;;
  emit (SigmaClippedStats bgsubimage) ;;;
  '(skymean, skymedian, skynoise) <- lift (sigma_clipped_stats bgsubimage 3%float) ;;
  ret (subimage, objsrc, nconfsrcs, skymean, skynoise).

(** "With equal paths the call extracts once and returns one cutout as both
    the science and the background cutout", as a property of one call. *)
Definition extracts_once_and_returns_same
    (ra dec : float) (path : string) (cutout_width : Z) (mosaic_pix_scale : float) : Prop :=
  let call := make_cutouts ra dec (path, path) cutout_width mosaic_pix_scale in
  extractions (trace call) = 1 /\
  exists cutout x1 y1 wcs, outcome call = Ok (cutout, x1, y1, wcs, cutout).

(** The calls [make_cutouts] may make. *)
Definition is_cutout_call (e : ev) : bool :=
  match e with
  | FitsOpen _ | ReadWCS _ | ExtractCutout _ _ => true
  | FindNconfsources | SigmaClippedStats _ => false
  end.

End Collaborators.

End Cutouts.

(* ================================================================== *)
(** ** [run_tractor] *)

Module Fit.

(** What [run_tractor] does to the outside: it builds the tractor object,
    swaps [sys.stdout] and calls [tractor.optimize(variance=...)]. *)
Inductive event : Type :=
| NewTractor
| StdoutToDevnull
| StdoutRestored
| Optimize (variance : bool).

(** The [variance] argument of each [optimize] call of a trace, in order. *)
Fixpoint optimize_calls (t : list event) : list bool :=
  match t with
  | [] => []
  | Optimize v :: t' => v :: optimize_calls t'
  | _ :: t' => optimize_calls t'
  end.

(** The number of optimisation steps of a trace. *)
Definition steps (t : list event) : nat := List.length (optimize_calls t).

(** "The variance is requested on the final step only": of the [variance]
    arguments, in order, all but the last are [False]. *)
Definition variance_only_on_final (calls : list bool) : bool :=
  forallb negb (removelast calls).

Section Optimizer.

Variables Img Psf Sources Tractor Step : Type.

(** Lines 82-95: the [Image], the [Tractor] over it and the source list,
    with the image parameters frozen. *)
Variable new_tractor : Img -> Psf -> Sources -> float -> float -> result Tractor.

(** [tractor.optimize(variance=v)]: it raises, or it returns
    [(dlnp, X, alpha, var)] and leaves the tractor object updated.  [X] and
    [alpha] are of type [Step]. *)
Variable optimize :
  bool -> Tractor -> result (float * Step * Step * value * Tractor).

(** [open(os.devnull, "w")], the first thing [suppress_stdout] does: it
    raises, or it returns the file. *)
Variable open_devnull : result unit.

Local Open Scope py_scope.

(** [with suppress_stdout(): body]: the null device is opened, standard
    output is swapped for it, the body runs, and standard output is put
    back whether the body returned or raised. *)
Definition suppress_stdout {A} (body : M event A) : M event A :=
  devnull <- lift open_devnull ;;
  emit StdoutToDevnull ;;;
  try_finally body [StdoutRestored].

(** [for tr in range(n): ...], from a tractor object and the current binding
    of the local [flux_var] ([None] while it is unbound). *)
Fixpoint optimize_loop (n : nat) (tractor : Tractor) (flux_var : option value)
  : M event (option value) :=
  match n with
  | O => ret flux_var
  | S n' =>
      emit (Optimize true) ;;;
      '(dlnp, X, alpha, flux_var', tractor') <- lift (optimize true tractor) ;;
      if (dlnp <? dlnp_tol)%float then
        ret (Some flux_var')
      else
        optimize_loop n' tractor' (Some flux_var')
  end.

Definition run_tractor
    (subimage : Img) (prf : Psf) (objsrc : Sources) (skymean skynoise : float)
  : M event (value * bool) :=
  emit NewTractor ;;;
  tractor <- lift (new_tractor subimage prf objsrc skymean skynoise) ;;
  '(flux_var, fit_fail) <-
    try_except_Exception
      (flux_var <- suppress_stdout (optimize_loop 20 tractor None) ;;
       ret (flux_var, false))
      (ret (Some (Scalar nan), true)) ;;
  match flux_var with
  | Some v => ret (v, fit_fail)
  | None => raise UnboundLocalError
  end.

(** An exception [e] is raised during the optimisation steps: within [n]
    steps from [tractor], some step raises [e], every step before it having
    returned without meeting the convergence criterion. *)
Inductive raises_within : nat -> Tractor -> exn -> Prop :=
| raises_now n tractor e :
    optimize true tractor = Raise e ->
    raises_within (S n) tractor e
| raises_later n tractor e dlnp X alpha var tractor' :
    optimize true tractor = Ok (dlnp, X, alpha, var, tractor') ->
    (dlnp <? dlnp_tol)%float = false ->
    raises_within n tractor' e ->
    raises_within (S n) tractor e.

(** Step number [k] (from 1) is the first to report [dlnp < 1e-3], with
    variance [var]; the steps before it returned without meeting it. *)
Inductive converges_at : nat -> Tractor -> value -> Prop :=
| converges_now tractor dlnp X alpha var tractor' :
    optimize true tractor = Ok (dlnp, X, alpha, var, tractor') ->
    (dlnp <? dlnp_tol)%float = true ->
    converges_at 1 tractor var
| converges_later k tractor dlnp X alpha var0 tractor' var :
    optimize true tractor = Ok (dlnp, X, alpha, var0, tractor') ->
    (dlnp <? dlnp_tol)%float = false ->
    converges_at k tractor' var ->
    converges_at (S k) tractor var.

(** [n >= 1] steps in a row return without meeting the criterion, the last
    one with variance [var]. *)
Inductive never_converges : nat -> Tractor -> value -> Prop :=
| never_one tractor dlnp X alpha var tractor' :
    optimize true tractor = Ok (dlnp, X, alpha, var, tractor') ->
    (dlnp <? dlnp_tol)%float = false ->
    never_converges 1 tractor var
| never_more n tractor dlnp X alpha var0 tractor' var :
    optimize true tractor = Ok (dlnp, X, alpha, var0, tractor') ->
    (dlnp <? dlnp_tol)%float = false ->
    never_converges n tractor' var ->
    never_converges (S n) tractor var.

End Optimizer.

End Fit.

(* ================================================================== *)
(** ** Concrete scenarios *)

Module Scenario.

(** A point source as the tractor lays it out when position and flux are
    fitted: two position parameters, then the flux. *)
Definition point_source (x y flux : float) : Results.Source :=
  {| Results.getParamNames := ["pos.x"; "pos.y"; "brightness.Flux"]%string;
     Results.getParams := [x; y; flux] |}.

(** A target and one confusing source, and a variance vector of six entries
    whose last one is 4.0. *)
Definition two_sources : list Results.Source :=
  [point_source 10 12 5; point_source 3 4 7]%float.

Definition six_variances : list float := [1; 1; 9; 1; 1; 4]%float.

(** A source whose flux is frozen: only its position is a parameter. *)
Definition position_only (x y : float) : Results.Source :=
  {| Results.getParamNames := ["pos.x"; "pos.y"]%string;
     Results.getParams := [x; y] |}.

(** Files for the cutout scenarios.  An HDU is the path it was opened from,
    a WCS is the HDU it was read from, a cutout records the HDU and the WCS
    it was carved with, and an offset is an integer.  Extraction reports
    no data for the file ["offframe.fits"]; ["missing.fits"] cannot be opened. *)
Definition fits_open (path : string) : result string :=
  if String.eqb path "missing.fits" then Raise OSError else Ok path.

Definition WCS (hdu : string) : result string := Ok hdu.

Definition extract_cutout (ra dec : float) (width : Z) (scale : float)
    (hdu wcs : string) : result (string * string * bool * Z * Z * string) :=
  Ok (hdu, wcs, String.eqb hdu "offframe.fits",
      Z.of_nat (String.length hdu), width, wcs).

Definition find_nconfsources (ra dec : float) (stype : unit) (flux : float)
    (x1 y1 : Z) (width : Z) (wcs : string) (df : unit)
  : result (list Results.Source * Z) :=
  Ok ([point_source 30 30 flux], 0%Z).

Definition sigma_clipped_stats (bg : string * string) (sigma : float)
  : result (float * float * float) :=
  Ok (0, 0, 1)%float.

Definition make_cutouts :=
  Cutouts.make_cutouts (Offset:=Z) fits_open WCS extract_cutout.

(** As [fits_open], with ["link.fits"] a second path to the science file. *)
Definition fits_open_linked (path : string) : result string :=
  if String.eqb path "link.fits" then Ok "sci.fits"%string else fits_open path.

(** A source finder that fails. *)
Definition find_nconfsources_fails (ra dec : float) (stype : unit) (flux : float)
    (x1 y1 : Z) (width : Z) (wcs : string) (df : unit)
  : result (list Results.Source * Z) :=
  Raise RuntimeError.

Definition setup_for_tractor :=
  Cutouts.setup_for_tractor fits_open WCS extract_cutout
    find_nconfsources sigma_clipped_stats.

Definition irac : Cutouts.BandConfigs :=
  {| Cutouts.cutout_width := 10; Cutouts.mosaic_pix_scale := 0.5 |}.

(** An optimiser that replays a script: the tractor object is the list of
    the outcomes of the calls still to come, each an exception or a [dlnp]
    with the variance vector the call would report.  The variance is reported
    only when asked for.  The "image" of these scenarios is the script. *)
Definition script : Type := list (result (float * list float)).

Definition new_tractor (subimage : script) (prf objsrc : unit)
    (skymean skynoise : float) : result script :=
  Ok subimage.

Definition optimize (variance : bool) (tractor : script)
  : result (float * unit * unit * value * script) :=
  match tractor with
  | [] => Raise RuntimeError
  | Raise e :: _ => Raise e
  | Ok (dlnp, var) :: rest =>
      Ok (dlnp, tt, tt, if variance then Array var else None_, rest)
  end.

Definition run_tractor (subimage : script) :=
  Fit.run_tractor new_tractor optimize (Ok tt) subimage tt tt 0 1.

(** A fit interrupted from the keyboard during its second step. *)
Definition interrupted : script :=
  [Ok (1, [1; 1; 9]); Raise KeyboardInterrupt]%float.

(** A fit whose second step meets a singular matrix. *)
Definition singular : script :=
  [Ok (1, [1; 1; 9]); Raise LinAlgError]%float.

(** A fit whose first step is already converged. *)
Definition converged_at_once : script := [Ok (0, [1; 1; 4])]%float.

(** A fit that converges at its second step. *)
Definition two_steps : script :=
  [Ok (1, [1; 1; 9]); Ok (0, [1; 1; 4])]%float.

(** A fit that improves by 1 at every step, for as long as it is asked. *)
Definition slow : script := repeat (Ok (1, [1; 1; 4])%float) 25.

(** An image the tractor cannot be built on. *)
Definition new_tractor_fails (subimage : script) (prf objsrc : unit)
    (skymean skynoise : float) : result script :=
  Raise ValueError.

(** An optimiser whose improvement is never a number; the tractor object
    counts the calls made, and the variance vector reported by call number
    [n] has [n] entries. *)
Definition optimize_nan (variance : bool) (tractor : nat)
  : result (float * unit * unit * value * nat) :=
  Ok (nan, tt, tt, Array (repeat 1%float (S tractor)), S tractor).

Definition new_counter (subimage prf objsrc : unit) (skymean skynoise : float)
  : result nat :=
  Ok 0.

End Scenario.

(* ================================================================== *)
(** * Properties *)

(** ** Indexing *)

Lemma getitem_in_bounds {A} (l : list A) (i : Z) :
  (0 <= i < Z.of_nat (List.length l))%Z ->
  exists a, nth_error l (Z.to_nat i) = Some a /\ getitem l i = Ok a.
Proof.
  intros [Hlo Hhi].
  destruct (nth_error l (Z.to_nat i)) as [a|] eqn:Hnth.
  - exists a. split; [reflexivity|].
    unfold getitem.
    replace (i <? 0)%Z with false by (symmetry; apply Z.ltb_ge; lia).
    replace (0 <=? i)%Z with true by (symmetry; apply Z.leb_le; lia).
    replace (i <? Z.of_nat (List.length l))%Z with true
      by (symmetry; apply Z.ltb_lt; lia).
    cbn. now rewrite Hnth.
  - apply nth_error_None in Hnth. lia.
Qed.

Lemma getitem_past_end {A} (l : list A) (i : Z) :
  (0 <= i)%Z -> (Z.of_nat (List.length l) <= i)%Z -> getitem l i = Raise IndexError.
Proof.
  intros Hlo Hhi. unfold getitem.
  replace (i <? 0)%Z with false by (symmetry; apply Z.ltb_ge; lia).
  replace (i <? Z.of_nat (List.length l))%Z with false
    by (symmetry; apply Z.ltb_ge; lia).
  now rewrite andb_false_r.
Qed.

Lemma getitem_from_end {A} (l : list A) (i : Z) :
  (i < 0)%Z -> (- i <= Z.of_nat (List.length l))%Z ->
  exists a,
    nth_error l (Z.to_nat (i + Z.of_nat (List.length l))) = Some a /\
    getitem l i = Ok a.
Proof.
  intros Hneg Hlen.
  destruct (nth_error l (Z.to_nat (i + Z.of_nat (List.length l)))) as [a|] eqn:Hnth.
  - exists a. split; [reflexivity|].
    unfold getitem.
    replace (i <? 0)%Z with true by (symmetry; apply Z.ltb_lt; lia).
    replace (0 <=? i + Z.of_nat (List.length l))%Z with true
      by (symmetry; apply Z.leb_le; lia).
    replace (i + Z.of_nat (List.length l) <? Z.of_nat (List.length l))%Z with true
      by (symmetry; apply Z.ltb_lt; lia).
    cbn. now rewrite Hnth.
  - apply nth_error_None in Hnth. lia.
Qed.

Lemma getitem_before_start {A} (l : list A) (i : Z) :
  (i < 0)%Z -> (Z.of_nat (List.length l) < - i)%Z -> getitem l i = Raise IndexError.
Proof.
  intros Hneg Hlen. unfold getitem.
  replace (i <? 0)%Z with true by (symmetry; apply Z.ltb_lt; lia).
  replace (0 <=? i + Z.of_nat (List.length l))%Z with false
    by (symmetry; apply Z.leb_gt; lia).
  reflexivity.
Qed.

(** ** The result reader *)

Section ResultsSpec.

Import Results.

(** When the target's flux can be read, what is left of the call is the
    variance lookup. *)
Lemma interpret_reads_flux
    (flux_var : value) (flux_conv : float) (objsrc : list Source) (nconfsrcs : Z)
    (target : Source) (bindex : Z) (flux : float) :
  getitem objsrc 0 = Ok target ->
  list_index (getParamNames target) "brightness.Flux" = Ok bindex ->
  getitem (getParams target) bindex = Ok flux ->
  interpret_tractor_results flux_var flux_conv false objsrc nconfsrcs =
    match flux_var with
    | None_ => ([GetParamNames 0; GetParams 0], Ok (flux * flux_conv, nan)%float)
    | _ =>
        ([GetParamNames 0; GetParams 0],
         match subscript flux_var ((nconfsrcs + 1) * 3 - 1) with
         | Ok x => Ok (flux * flux_conv, sqrt x * flux_conv)%float
         | Raise e => Raise e
         end)
    end.
Proof.
  intros Htarget Hname Hflux.
  unfold interpret_tractor_results.
  destruct flux_var as [|x|x|v]; cbn [bind lift emit ret];
    rewrite Htarget; cbn [bind lift emit ret app];
    rewrite Hname; cbn [bind lift emit ret app];
    rewrite Hflux; cbn [bind lift emit ret app]; try reflexivity.
  cbn [subscript]. destruct (getitem v ((nconfsrcs + 1) * 3 - 1)); reflexivity.
Qed.

(** Whatever the sources are, a call that does not report a failed fit and
    cannot index its variance ends in an exception. *)
Lemma interpret_bad_variance
    (flux_var : value) (flux_conv : float) (objsrc : list Source) (nconfsrcs : Z) (e0 : exn) :
  flux_var <> None_ ->
  subscript flux_var ((nconfsrcs + 1) * 3 - 1) = Raise e0 ->
  exists e, outcome (interpret_tractor_results flux_var flux_conv false objsrc nconfsrcs) = Raise e.
Proof.
  intros Hnone Hsub.
  unfold interpret_tractor_results, outcome.
  destruct flux_var as [|x|x|v]; [congruence| | |];
    cbn [bind lift emit ret];
    (destruct (getitem objsrc 0) as [s|e1]; [|cbn; eauto]);
    cbn [bind lift emit ret app];
    (destruct (list_index (getParamNames s) "brightness.Flux") as [b|e2]; [|cbn; eauto]);
    cbn [bind lift emit ret app];
    (destruct (getitem (getParams s) b) as [f|e3]; [|cbn; eauto]);
    cbn [bind lift emit ret app];
    rewrite Hsub; cbn; eauto.
Qed.

End ResultsSpec.

Section ResultsClaims.

Import Results.

(** C1. A call with [fit_fail = False] and a variance vector returns
    [(flux * flux_conv, sqrt(variance[((nconfsrcs + 1) * 3) - 1]) * flux_conv)],
    where [flux] is the parameter of [objsrc[0]] named ["brightness.Flux"];
    with [nconfsrcs = 1], [flux_conv = 1.0], flux [5.0] and [4.0] at index 5
    of the variance, that is [(5.0, 2.0)]. *)
Theorem interpret_with_variance
    (flux_var : list float) (flux_conv : float) (objsrc : list Source) (nconfsrcs : Z)
    (target : Source) (bindex : Z) (flux variance : float)
    (Htarget : getitem objsrc 0 = Ok target)
    (Hname : list_index (getParamNames target) "brightness.Flux" = Ok bindex)
    (Hflux : getitem (getParams target) bindex = Ok flux)
    (Hvar : getitem flux_var ((nconfsrcs + 1) * 3 - 1) = Ok variance) :
  outcome (interpret_tractor_results (Array flux_var) flux_conv false objsrc nconfsrcs)
    = Ok (flux * flux_conv, sqrt variance * flux_conv)%float
  /\ (nconfsrcs = 1%Z -> flux_conv = 1%float -> flux = 5%float -> variance = 4%float ->
      getitem flux_var 5 = Ok 4%float /\
      outcome (interpret_tractor_results (Array flux_var) flux_conv false objsrc nconfsrcs)
        = Ok (5, 2)%float).
Proof.
  assert (Hcall :
    outcome (interpret_tractor_results (Array flux_var) flux_conv false objsrc nconfsrcs)
      = Ok (flux * flux_conv, sqrt variance * flux_conv)%float).
  { rewrite (interpret_reads_flux _ _ _ _ Htarget Hname Hflux).
    cbn [subscript outcome snd]. now rewrite Hvar. }
  split; [exact Hcall|].
  intros Hn Hconv Hf Hv. subst nconfsrcs flux_conv flux variance.
  split; [exact Hvar|]. rewrite Hcall. reflexivity.
Qed.

Lemma interpret_with_variance_witness :
  outcome (interpret_tractor_results
             (Array Scenario.six_variances) 1 false Scenario.two_sources 1)
    = Ok (5, 2)%float.
Proof.
  refine (proj2 (proj2 (@interpret_with_variance
            Scenario.six_variances 1%float Scenario.two_sources 1%Z
            (Scenario.point_source 10 12 5) 2%Z 5%float 4%float _ _ _ _)
          _ _ _ _));
    reflexivity.
Defined.

(** C2. With [fit_fail = True] the call returns [(nan, nan)] whatever the
    other arguments are, and it reads no parameter of any source: its trace
    of parameter reads is empty. *)
Theorem interpret_failed_fit
    (flux_var : value) (flux_conv : float) (objsrc : list Source) (nconfsrcs : Z) :
  outcome (interpret_tractor_results flux_var flux_conv true objsrc nconfsrcs)
    = Ok (nan, nan)
  /\ trace (interpret_tractor_results flux_var flux_conv true objsrc nconfsrcs) = [].
Proof.
  unfold interpret_tractor_results, ret, outcome, trace. split; reflexivity.
Qed.

(** C3. A call with [fit_fail = False] and [flux_var = None] returns
    [(flux * flux_conv, nan)], where [flux] is the parameter of [objsrc[0]]
    named ["brightness.Flux"]; with [flux_conv = 2.0] and flux [10.0] that is
    [(20.0, nan)]. *)
Theorem interpret_without_variance
    (flux_conv : float) (objsrc : list Source) (nconfsrcs : Z)
    (target : Source) (bindex : Z) (flux : float)
    (Htarget : getitem objsrc 0 = Ok target)
    (Hname : list_index (getParamNames target) "brightness.Flux" = Ok bindex)
    (Hflux : getitem (getParams target) bindex = Ok flux) :
  outcome (interpret_tractor_results None_ flux_conv false objsrc nconfsrcs)
    = Ok (flux * flux_conv, nan)%float
  /\ (flux_conv = 2%float -> flux = 10%float ->
      outcome (interpret_tractor_results None_ flux_conv false objsrc nconfsrcs)
        = Ok (20, nan)%float).
Proof.
  assert (Hcall :
    outcome (interpret_tractor_results None_ flux_conv false objsrc nconfsrcs)
      = Ok (flux * flux_conv, nan)%float).
  { now rewrite (interpret_reads_flux _ _ _ _ Htarget Hname Hflux). }
  split; [exact Hcall|].
  intros Hconv Hf. subst flux_conv flux. rewrite Hcall. reflexivity.
Qed.

Lemma interpret_without_variance_witness :
  outcome (interpret_tractor_results
             None_ 2 false [Scenario.point_source 1 2 10] 0)
    = Ok (20, nan)%float.
Proof.
  refine (proj2 (@interpret_without_variance
            2%float [Scenario.point_source 1 2 10] 0%Z
            (Scenario.point_source 1 2 10) 2%Z 10%float _ _ _)
          _ _);
    reflexivity.
Defined.

(** C10, as amended.  The variance is indexed at [((nconfsrcs + 1) * 3) - 1]
    with no guard.  When [nconfsrcs >= 0] and the variance is a vector of at
    least [3 * (nconfsrcs + 1)] entries the lookup is in bounds: it yields the
    entry at that position and the call returns.  A vector shorter than that
    makes the lookup raise [IndexError], a Python float makes it raise
    [TypeError], a numpy scalar makes it raise [IndexError], and in these
    cases the call ends in an exception, not in a result.  A negative
    [nconfsrcs] is not guarded either: the index is then negative and is
    read from the end of the vector, so the call returns when the vector has
    at least [-index] entries and raises [IndexError] when it has fewer. *)
Theorem variance_index_unguarded
    (flux_var : list float) (flux_conv : float) (objsrc : list Source) (nconfsrcs : Z) :
  ((0 <= nconfsrcs)%Z ->
   (3 * (nconfsrcs + 1) <= Z.of_nat (List.length flux_var))%Z ->
   exists x,
     nth_error flux_var (Z.to_nat ((nconfsrcs + 1) * 3 - 1)) = Some x /\
     subscript (Array flux_var) ((nconfsrcs + 1) * 3 - 1) = Ok x /\
     forall target bindex flux,
       getitem objsrc 0 = Ok target ->
       list_index (getParamNames target) "brightness.Flux" = Ok bindex ->
       getitem (getParams target) bindex = Ok flux ->
       outcome (interpret_tractor_results (Array flux_var) flux_conv false objsrc nconfsrcs)
         = Ok (flux * flux_conv, sqrt x * flux_conv)%float)
  /\ ((Z.of_nat (List.length flux_var) < 3 * (nconfsrcs + 1))%Z ->
      subscript (Array flux_var) ((nconfsrcs + 1) * 3 - 1) = Raise IndexError /\
      exists e,
        outcome (interpret_tractor_results (Array flux_var) flux_conv false objsrc nconfsrcs)
          = Raise e)
  /\ (forall x : float,
      subscript (Scalar x) ((nconfsrcs + 1) * 3 - 1) = Raise TypeError /\
      exists e,
        outcome (interpret_tractor_results (Scalar x) flux_conv false objsrc nconfsrcs)
          = Raise e)
  /\ (forall x : float,
      subscript (NpScalar x) ((nconfsrcs + 1) * 3 - 1) = Raise IndexError /\
      exists e,
        outcome (interpret_tractor_results (NpScalar x) flux_conv false objsrc nconfsrcs)
          = Raise e)
  /\ ((nconfsrcs < 0)%Z ->
      (- ((nconfsrcs + 1) * 3 - 1) <= Z.of_nat (List.length flux_var))%Z ->
      exists x,
        nth_error flux_var
          (Z.to_nat ((nconfsrcs + 1) * 3 - 1 + Z.of_nat (List.length flux_var))) = Some x /\
        subscript (Array flux_var) ((nconfsrcs + 1) * 3 - 1) = Ok x /\
        forall target bindex flux,
          getitem objsrc 0 = Ok target ->
          list_index (getParamNames target) "brightness.Flux" = Ok bindex ->
          getitem (getParams target) bindex = Ok flux ->
          outcome (interpret_tractor_results (Array flux_var) flux_conv false objsrc nconfsrcs)
            = Ok (flux * flux_conv, sqrt x * flux_conv)%float)
  /\ ((nconfsrcs < 0)%Z ->
      (Z.of_nat (List.length flux_var) < - ((nconfsrcs + 1) * 3 - 1))%Z ->
      subscript (Array flux_var) ((nconfsrcs + 1) * 3 - 1) = Raise IndexError /\
      exists e,
        outcome (interpret_tractor_results (Array flux_var) flux_conv false objsrc nconfsrcs)
          = Raise e).
Proof.
  split; [|split; [|split; [|split; [|split]]]].
  - intros Hn Hlen.
    destruct (@getitem_in_bounds _ flux_var ((nconfsrcs + 1) * 3 - 1)) as (x & Hnth & Hget);
      [lia|].
    exists x. split; [exact Hnth|]. split; [exact Hget|].
    intros target bindex flux Htarget Hname Hflux.
    rewrite (interpret_reads_flux _ _ _ _ Htarget Hname Hflux).
    cbn [subscript outcome snd]. now rewrite Hget.
  - intros Hshort.
    assert (Hsub : subscript (Array flux_var) ((nconfsrcs + 1) * 3 - 1) = Raise IndexError).
    { cbn [subscript]. apply getitem_past_end; lia. }
    split; [exact Hsub|].
    eapply interpret_bad_variance; [discriminate|exact Hsub].
  - intros x. split; [reflexivity|].
    eapply interpret_bad_variance; [discriminate|reflexivity].
  - intros x. split; [reflexivity|].
    eapply interpret_bad_variance; [discriminate|reflexivity].
  - intros Hn Hlen.
    destruct (@getitem_from_end _ flux_var ((nconfsrcs + 1) * 3 - 1)) as (x & Hnth & Hget);
      [lia|lia|].
    exists x. split; [exact Hnth|]. split; [exact Hget|].
    intros target bindex flux Htarget Hname Hflux.
    rewrite (interpret_reads_flux _ _ _ _ Htarget Hname Hflux).
    cbn [subscript outcome snd]. now rewrite Hget.
  - intros Hn Hshort.
    assert (Hsub : subscript (Array flux_var) ((nconfsrcs + 1) * 3 - 1) = Raise IndexError).
    { cbn [subscript]. apply getitem_before_start; lia. }
    split; [exact Hsub|].
    eapply interpret_bad_variance; [discriminate|exact Hsub].
Qed.

Lemma variance_index_unguarded_witness :
  (exists x,
     nth_error Scenario.six_variances 5 = Some x /\
     outcome (interpret_tractor_results
                (Array Scenario.six_variances) 1 false Scenario.two_sources 1)
       = Ok (5 * 1, sqrt x * 1)%float)
  /\ (exists e,
        outcome (interpret_tractor_results
                   (Array [1; 1; 9]%float) 1 false Scenario.two_sources 1)
          = Raise e)
  /\ (exists e,
        outcome (interpret_tractor_results
                   (Scalar nan) 1 false Scenario.two_sources 1)
          = Raise e)
  /\ (exists x,
        nth_error Scenario.six_variances 2 = Some x /\
        outcome (interpret_tractor_results
                   (Array Scenario.six_variances) 1 false Scenario.two_sources (-2))
          = Ok (5 * 1, sqrt x * 1)%float).
Proof.
  split; [|split; [|split]].
  - destruct (proj1 (@variance_index_unguarded
                       Scenario.six_variances 1%float Scenario.two_sources 1%Z))
      as (x & Hnth & _ & Hcall); [lia | cbn; lia |].
    exists x. split; [exact Hnth|].
    apply (Hcall (Scenario.point_source 10 12 5) 2%Z 5%float); reflexivity.
  - apply (proj1 (proj2 (@variance_index_unguarded
                           [1; 1; 9]%float 1%float Scenario.two_sources 1%Z))).
    cbn; lia.
  - apply (proj1 (proj2 (proj2 (@variance_index_unguarded
                           [] 1%float Scenario.two_sources 1%Z))) nan).
  - destruct (proj1 (proj2 (proj2 (proj2 (proj2 (@variance_index_unguarded
                       Scenario.six_variances 1%float Scenario.two_sources (-2)%Z))))))
      as (x & Hnth & _ & Hcall); [lia | cbn; lia |].
    exists x. split; [exact Hnth|].
    apply (Hcall (Scenario.point_source 10 12 5) 2%Z 5%float); reflexivity.
Defined.

(** C10, as stated, fails for a negative count: with [nconfsrcs = -1] the
    precondition does not hold, the index is [-1], Python reads the last
    entry of the vector, and the call returns a result. *)
Lemma negative_count_reads_from_end :
  (-1 < 0)%Z
  /\ subscript (Array Scenario.six_variances) ((-1 + 1) * 3 - 1) = Ok 4%float
  /\ outcome (interpret_tractor_results
                (Array Scenario.six_variances) 1 false Scenario.two_sources (-1))
     = Ok (5, 2)%float.
Proof. repeat split. Qed.

End ResultsClaims.

(** ** Cutouts *)

Section CutoutsSpec.

Import Cutouts.

Variables HDU Wcs Cutout Offset Sources SType Catalog : Type.
Variable fits_open : string -> result HDU.
Variable WCS : HDU -> result Wcs.
Variable extract_cutout :
  float -> float -> Z -> float -> HDU -> Wcs ->
  result (Cutout * bool * Offset * Offset * Wcs).
Variable find_nconfsources :
  float -> float -> SType -> float -> Offset -> Offset -> Z -> Wcs -> Catalog ->
  result (Sources * Z).
Variable sigma_clipped_stats : Cutout -> float -> result (float * float * float).

Local Abbreviation make_cutouts := (make_cutouts fits_open WCS extract_cutout).
Local Abbreviation setup_for_tractor :=
  (setup_for_tractor fits_open WCS extract_cutout find_nconfsources sigma_clipped_stats).

Variables (ra dec : float) (imgfile skybgfile : string).
Variables (width : Z) (scale : float).

(** Once the science cutout has been extracted, the rest of the call is the
    no-data test, the test on the two paths and the background extraction. *)
Lemma make_cutouts_after_science hdu wcs sub nodata x1 y1 sub_wcs :
  fits_open imgfile = Ok hdu ->
  WCS hdu = Ok wcs ->
  extract_cutout ra dec width scale hdu wcs = Ok (sub, nodata, x1, y1, sub_wcs) ->
  make_cutouts ra dec (imgfile, skybgfile) width scale =
    let science := [FitsOpen imgfile; ReadWCS hdu; ExtractCutout hdu wcs] in
    if nodata then (science, Raise CutoutError)
    else if String.eqb skybgfile imgfile then (science, Ok (sub, x1, y1, sub_wcs, sub))
    else
      match fits_open skybgfile with
      | Raise e => (science ++ [FitsOpen skybgfile], Raise e)
      | Ok bkg =>
          (science ++ [FitsOpen skybgfile; ExtractCutout bkg wcs],
           match extract_cutout ra dec width scale bkg wcs with
           | Raise e => Raise e
           | Ok (bgsub, bgnodata, _, _, _) =>
               if bgnodata then Raise CutoutError
               else Ok (sub, x1, y1, sub_wcs, bgsub)
           end)
      end.
Proof.
  intros Hopen Hwcs Hsci.
  unfold Cutouts.make_cutouts.
  cbn [bind lift emit ret raise app].
  rewrite Hopen. cbn [bind lift emit ret raise app].
  rewrite Hwcs. cbn [bind lift emit ret raise app].
  rewrite Hsci. cbn [bind lift emit ret raise app].
  destruct nodata; [reflexivity|].
  destruct (String.eqb skybgfile imgfile); [reflexivity|].
  cbn [bind lift emit ret raise app].
  destruct (fits_open skybgfile) as [bkg|e]; [|reflexivity].
  cbn [bind lift emit ret raise app].
  destruct (extract_cutout ra dec width scale bkg wcs) as [[[[[bgsub bgnodata] bx] by_] bw]|e];
    [|reflexivity].
  cbn [bind lift emit ret raise app].
  destruct bgnodata; reflexivity.
Qed.

(** [make_cutouts] opens files, reads a WCS and extracts cutouts; it calls
    nothing else. *)
Lemma make_cutouts_calls :
  forallb (@is_cutout_call HDU Wcs Cutout)
    (trace (make_cutouts ra dec (imgfile, skybgfile) width scale)) = true.
Proof.
  destruct (fits_open imgfile) as [hdu|e] eqn:Hopen.
  2:{ unfold Cutouts.make_cutouts. cbn [bind lift emit]. rewrite Hopen. reflexivity. }
  destruct (WCS hdu) as [wcs|e] eqn:Hwcs.
  2:{ unfold Cutouts.make_cutouts. cbn [bind lift emit]. rewrite Hopen.
      cbn [bind lift emit app]. rewrite Hwcs. reflexivity. }
  destruct (extract_cutout ra dec width scale hdu wcs)
    as [[[[[sub nodata] x1] y1] sub_wcs]|e] eqn:Hsci.
  2:{ unfold Cutouts.make_cutouts. cbn [bind lift emit]. rewrite Hopen.
      cbn [bind lift emit app]. rewrite Hwcs. cbn [bind lift emit app].
      rewrite Hsci. reflexivity. }
  rewrite (make_cutouts_after_science Hopen Hwcs Hsci). cbv zeta.
  destruct nodata; [reflexivity|].
  destruct (String.eqb skybgfile imgfile); [reflexivity|].
  destruct (fits_open skybgfile); reflexivity.
Qed.

(** An exception of [make_cutouts] leaves [setup_for_tractor] as it is,
    before any other call. *)
Lemma setup_for_tractor_propagates band_configs stype ks_flux_aper2 df e :
  outcome (Cutouts.make_cutouts fits_open WCS extract_cutout ra dec (imgfile, skybgfile)
             (cutout_width band_configs) (mosaic_pix_scale band_configs)) = Raise e ->
  setup_for_tractor band_configs ra dec stype ks_flux_aper2 (imgfile, skybgfile) df =
    (trace (Cutouts.make_cutouts fits_open WCS extract_cutout ra dec (imgfile, skybgfile)
              (cutout_width band_configs) (mosaic_pix_scale band_configs)),
     Raise e).
Proof.
  unfold Cutouts.setup_for_tractor, outcome, trace.
  destruct (Cutouts.make_cutouts _ _ _ _ _ _ _ _) as [t [r|e']]; cbn; [discriminate|].
  now intros [= ->].
Qed.

(** C6. When the science extraction or the background extraction reports
    its no-data flag as true, [make_cutouts] raises [CutoutError] and returns
    no cutout; [setup_for_tractor] ends there with the same exception, having
    called neither the source finder nor the sky statistics. *)
Theorem nodata_raises_CutoutError
    (stype : SType) (ks_flux_aper2 : float) (df : Catalog)
    hdu wcs sub nodata x1 y1 sub_wcs
    (Hopen : fits_open imgfile = Ok hdu)
    (Hwcs : WCS hdu = Ok wcs)
    (Hsci : extract_cutout ra dec width scale hdu wcs = Ok (sub, nodata, x1, y1, sub_wcs))
    (Hnodata :
       nodata = true \/
       exists bkg bgsub bgx1 bgy1 bg_wcs,
         fits_open skybgfile = Ok bkg /\
         extract_cutout ra dec width scale bkg wcs = Ok (bgsub, true, bgx1, bgy1, bg_wcs)) :
  let call := make_cutouts ra dec (imgfile, skybgfile) width scale in
  let band_configs := {| cutout_width := width; mosaic_pix_scale := scale |} in
  let request :=
    setup_for_tractor band_configs ra dec stype ks_flux_aper2 (imgfile, skybgfile) df in
  outcome call = Raise CutoutError
  /\ outcome request = Raise CutoutError
  /\ trace request = trace call
  /\ forallb (@is_cutout_call HDU Wcs Cutout) (trace request) = true.
Proof.
  cbv zeta.
  assert (Hcall :
    outcome (make_cutouts ra dec (imgfile, skybgfile) width scale) = Raise CutoutError).
  { rewrite (make_cutouts_after_science Hopen Hwcs Hsci). cbv zeta.
    destruct nodata; [reflexivity|].
    destruct Hnodata as [Hflag | (bkg & bgsub & bgx1 & bgy1 & bg_wcs & Hbopen & Hbg)];
      [discriminate|].
    destruct (String.eqb skybgfile imgfile) eqn:Hsame.
    - apply String.eqb_eq in Hsame. subst skybgfile.
      rewrite Hopen in Hbopen. injection Hbopen as <-.
      rewrite Hsci in Hbg. discriminate.
    - rewrite Hbopen. cbn [outcome snd]. now rewrite Hbg. }
  split; [exact Hcall|].
  rewrite (setup_for_tractor_propagates
             {| cutout_width := width; mosaic_pix_scale := scale |}
             stype ks_flux_aper2 df Hcall).
  cbn [outcome trace fst snd].
  repeat split. apply make_cutouts_calls.
Qed.

(** C7, as amended.  With equal paths, once the file is opened and its WCS
    read, [make_cutouts] calls [extract_cutout] exactly once, whatever that
    call does.  When the extraction returns and does not report no data, the
    call returns the one cutout as both the science and the background
    cutout; when it reports no data the call raises [CutoutError]; when the
    extraction itself raises, its exception leaves the call. *)
Theorem same_file_extracts_once
    hdu wcs
    (Hsame : skybgfile = imgfile)
    (Hopen : fits_open imgfile = Ok hdu)
    (Hwcs : WCS hdu = Ok wcs) :
  let call := make_cutouts ra dec (imgfile, skybgfile) width scale in
  trace call = [FitsOpen imgfile; ReadWCS hdu; ExtractCutout hdu wcs]
  /\ extractions (trace call) = 1
  /\ outcome call =
       match extract_cutout ra dec width scale hdu wcs with
       | Ok (sub, nodata, x1, y1, sub_wcs) =>
           if nodata then Raise CutoutError else Ok (sub, x1, y1, sub_wcs, sub)
       | Raise e => Raise e
       end.
Proof.
  cbv zeta.
  destruct (extract_cutout ra dec width scale hdu wcs)
    as [[[[[sub nodata] x1] y1] sub_wcs]|e] eqn:Hsci.
  - rewrite (make_cutouts_after_science Hopen Hwcs Hsci). cbv zeta.
    subst skybgfile. rewrite String.eqb_refl.
    destruct nodata; repeat split.
  - unfold Cutouts.make_cutouts. cbn [bind lift emit].
    rewrite Hopen. cbn [bind lift emit app].
    rewrite Hwcs. cbn [bind lift emit app].
    rewrite Hsci. repeat split.
Qed.

(** C9. With distinct paths, [make_cutouts] returns exactly when both files
    open, the science WCS is read and both extractions report data; the
    background cutout is then the one extracted from the background HDU with
    the science image's WCS (no WCS is read from the background file), and
    the offsets and the local WCS returned are those of the science
    extraction, the background extraction's own being dropped. *)
Theorem background_uses_science_wcs
    (Hdistinct : skybgfile <> imgfile) :
  forall t subimage x1 y1 subimage_wcs bgsubimage,
    make_cutouts ra dec (imgfile, skybgfile) width scale
      = (t, Ok (subimage, x1, y1, subimage_wcs, bgsubimage))
    <->
    exists hdu wcs_info bkg bgx1 bgy1 bg_wcs,
      fits_open imgfile = Ok hdu /\
      WCS hdu = Ok wcs_info /\
      extract_cutout ra dec width scale hdu wcs_info
        = Ok (subimage, false, x1, y1, subimage_wcs) /\
      fits_open skybgfile = Ok bkg /\
      extract_cutout ra dec width scale bkg wcs_info
        = Ok (bgsubimage, false, bgx1, bgy1, bg_wcs) /\
      t = [FitsOpen imgfile; ReadWCS hdu; ExtractCutout hdu wcs_info;
           FitsOpen skybgfile; ExtractCutout bkg wcs_info].
Proof.
  intros t subimage x1 y1 subimage_wcs bgsubimage.
  apply String.eqb_neq in Hdistinct.
  split.
  - destruct (fits_open imgfile) as [hdu|e] eqn:Hopen.
    2:{ unfold Cutouts.make_cutouts. cbn [bind lift emit]. rewrite Hopen. discriminate. }
    destruct (WCS hdu) as [wcs|e] eqn:Hwcs.
    2:{ unfold Cutouts.make_cutouts. cbn [bind lift emit]. rewrite Hopen.
        cbn [bind lift emit app]. rewrite Hwcs. discriminate. }
    destruct (extract_cutout ra dec width scale hdu wcs)
      as [[[[[sub nodata] sx] sy] sw]|e] eqn:Hsci.
    2:{ unfold Cutouts.make_cutouts. cbn [bind lift emit]. rewrite Hopen.
        cbn [bind lift emit app]. rewrite Hwcs. cbn [bind lift emit app].
        rewrite Hsci. discriminate. }
    rewrite (make_cutouts_after_science Hopen Hwcs Hsci). cbv zeta.
    rewrite Hdistinct.
    destruct nodata; [discriminate|].
    destruct (fits_open skybgfile) as [bkg|e] eqn:Hbopen; [|discriminate].
    destruct (extract_cutout ra dec width scale bkg wcs)
      as [[[[[bgsub bgnodata] bx] by_] bw]|e] eqn:Hbg; [|discriminate].
    destruct bgnodata; [discriminate|].
    intros [= <- <- <- <- <- <-].
    exists hdu, wcs, bkg, bx, by_, bw. repeat split; assumption.
  - intros (hdu & wcs & bkg & bx & by_ & bw & Hopen & Hwcs & Hsci & Hbopen & Hbg & ->).
    rewrite (make_cutouts_after_science Hopen Hwcs Hsci). cbv zeta.
    rewrite Hdistinct, Hbopen, Hbg. reflexivity.
Qed.

End CutoutsSpec.

Section CutoutsScenarios.

Import Cutouts.
Local Open Scope string_scope.

Lemma nodata_raises_CutoutError_witness :
  outcome (Scenario.make_cutouts 1 2 ("sci.fits", "offframe.fits") 10 0.5)
    = Raise CutoutError
  /\ outcome (Scenario.setup_for_tractor Scenario.irac 1 2 tt 3
                ("sci.fits", "offframe.fits") tt)
    = Raise CutoutError
  /\ trace (Scenario.setup_for_tractor Scenario.irac 1 2 tt 3
              ("sci.fits", "offframe.fits") tt)
    = trace (Scenario.make_cutouts 1 2 ("sci.fits", "offframe.fits") 10 0.5)
  /\ forallb (@is_cutout_call string string (string * string))
       (trace (Scenario.setup_for_tractor Scenario.irac 1 2 tt 3
                 ("sci.fits", "offframe.fits") tt))
    = true.
Proof.
  apply (@nodata_raises_CutoutError
           string string (string * string) Z (list Results.Source) unit unit
           Scenario.fits_open Scenario.WCS Scenario.extract_cutout
           Scenario.find_nconfsources Scenario.sigma_clipped_stats
           1%float 2%float "sci.fits" "offframe.fits" 10%Z 0.5%float tt 3%float tt
           "sci.fits" "sci.fits" ("sci.fits", "sci.fits") false 8%Z 10%Z "sci.fits").
  - reflexivity.
  - reflexivity.
  - reflexivity.
  - right.
    exists "offframe.fits", ("offframe.fits", "sci.fits"), 13%Z, 10%Z, "sci.fits".
    split; reflexivity.
Defined.

(** C7, as stated, fails where the one extraction reports no data: the call
    raises [CutoutError] and returns no cutout. *)
Lemma same_file_offframe_returns_nothing :
  outcome (Scenario.make_cutouts 1 2 ("offframe.fits", "offframe.fits") 10 0.5)
    = Raise CutoutError
  /\ ~ extracts_once_and_returns_same
         Scenario.fits_open Scenario.WCS Scenario.extract_cutout (Offset:=Z)
         1 2 "offframe.fits" 10 0.5.
Proof.
  split; [reflexivity|].
  intros [_ (cutout & x1 & y1 & wcs & Hret)].
  discriminate Hret.
Qed.

Lemma same_file_extracts_once_witness :
  trace (Scenario.make_cutouts 1 2 ("sci.fits", "sci.fits") 10 0.5)
    = [FitsOpen "sci.fits"; ReadWCS "sci.fits"; ExtractCutout "sci.fits" "sci.fits"]
  /\ extractions (trace (Scenario.make_cutouts 1 2 ("sci.fits", "sci.fits") 10 0.5)) = 1
  /\ outcome (Scenario.make_cutouts 1 2 ("sci.fits", "sci.fits") 10 0.5)
    = Ok (("sci.fits", "sci.fits"), 8%Z, 10%Z, "sci.fits", ("sci.fits", "sci.fits")).
Proof.
  apply (@same_file_extracts_once
           string string (string * string) Z
           Scenario.fits_open Scenario.WCS Scenario.extract_cutout
           1%float 2%float "sci.fits" "sci.fits" 10%Z 0.5%float
           "sci.fits" "sci.fits");
    reflexivity.
Defined.

Lemma background_uses_science_wcs_witness :
  Scenario.make_cutouts 1 2 ("sci.fits", "bkg.fits") 10 0.5
    = ([FitsOpen "sci.fits"; ReadWCS "sci.fits"; ExtractCutout "sci.fits" "sci.fits";
        FitsOpen "bkg.fits"; ExtractCutout "bkg.fits" "sci.fits"],
       Ok (("sci.fits", "sci.fits"), 8%Z, 10%Z, "sci.fits", ("bkg.fits", "sci.fits"))).
Proof.
  apply (@background_uses_science_wcs
           string string (string * string) Z
           Scenario.fits_open Scenario.WCS Scenario.extract_cutout
           1%float 2%float "sci.fits" "bkg.fits" 10%Z 0.5%float).
  - discriminate.
  - exists "sci.fits", "sci.fits", "bkg.fits", 8%Z, 10%Z, "sci.fits".
    repeat split; reflexivity.
Defined.

End CutoutsScenarios.

(** ** The optimisation loop *)

Section FitSpec.

Import Fit.

Variables Img Psf Sources Tractor Step : Type.
Variable new_tractor : Img -> Psf -> Sources -> float -> float -> result Tractor.
Variable optimize :
  bool -> Tractor -> result (float * Step * Step * value * Tractor).
Variable open_devnull : result unit.

Local Abbreviation optimize_loop := (optimize_loop optimize).
Local Abbreviation run_tractor := (run_tractor new_tractor optimize open_devnull).
Local Abbreviation raises_within := (raises_within optimize).
Local Abbreviation converges_at := (converges_at optimize).
Local Abbreviation never_converges := (never_converges optimize).

(** One turn of the loop, by the outcome of its [optimize] call. *)
Lemma optimize_loop_step n tractor flux_var :
  optimize_loop (S n) tractor flux_var =
    match optimize true tractor with
    | Raise e => ([Optimize true], Raise e)
    | Ok (dlnp, _, _, var, tractor') =>
        if (dlnp <? dlnp_tol)%float then ([Optimize true], Ok (Some var))
        else (Optimize true :: trace (optimize_loop n tractor' (Some var)),
              outcome (optimize_loop n tractor' (Some var)))
    end.
Proof.
  cbn [Fit.optimize_loop bind lift emit ret app].
  destruct (optimize true tractor) as [[[[[dlnp X] alpha] var] tractor']|e];
    [|reflexivity].
  cbn [bind lift emit ret app].
  destruct (dlnp <? dlnp_tol)%float; [reflexivity|].
  destruct (Fit.optimize_loop optimize n tractor' (Some var)); reflexivity.
Qed.

(** The loop only ever calls [optimize], each time with [variance=True]. *)
Lemma optimize_loop_trace n :
  forall tractor flux_var,
    exists k, k <= n /\
      trace (optimize_loop n tractor flux_var) = repeat (Optimize true) k.
Proof.
  induction n as [|n IH]; intros tractor flux_var.
  - exists 0. split; [lia|reflexivity].
  - rewrite optimize_loop_step.
    destruct (optimize true tractor) as [[[[[dlnp X] alpha] var] tractor']|e].
    + destruct (dlnp <? dlnp_tol)%float.
      * exists 1. split; [lia|reflexivity].
      * destruct (IH tractor' (Some var)) as (k & Hk & Htr).
        exists (S k). split; [lia|]. cbn [trace fst repeat]. now rewrite Htr.
    + exists 1. split; [lia|reflexivity].
Qed.

(** Once bound, the local [flux_var] stays bound. *)
Lemma optimize_loop_bound n :
  forall tractor var r,
    outcome (optimize_loop n tractor (Some var)) = Ok r -> exists var', r = Some var'.
Proof.
  induction n as [|n IH]; intros tractor var r.
  - cbn. intros [= <-]. eauto.
  - rewrite optimize_loop_step.
    destruct (optimize true tractor) as [[[[[dlnp X] alpha] var1] tractor']|e];
      [|discriminate].
    destruct (dlnp <? dlnp_tol)%float.
    + cbn. intros [= <-]. eauto.
    + cbn [outcome snd]. apply IH.
Qed.

(** A loop of at least one turn that ends normally has bound [flux_var]. *)
Lemma optimize_loop_binds n tractor flux_var r :
  outcome (optimize_loop (S n) tractor flux_var) = Ok r -> exists var, r = Some var.
Proof.
  rewrite optimize_loop_step.
  destruct (optimize true tractor) as [[[[[dlnp X] alpha] var] tractor']|e];
    [|discriminate].
  destruct (dlnp <? dlnp_tol)%float.
  - cbn. intros [= <-]. eauto.
  - cbn [outcome snd]. apply optimize_loop_bound.
Qed.

Lemma optimize_loop_raises n tractor e :
  raises_within n tractor e ->
  forall flux_var, outcome (optimize_loop n tractor flux_var) = Raise e.
Proof.
  induction 1 as [n tractor e Hopt | n tractor e dlnp X alpha var tractor' Hopt Hgo _ IH];
    intros flux_var; rewrite optimize_loop_step, Hopt.
  - reflexivity.
  - rewrite Hgo. cbn [outcome snd]. apply IH.
Qed.

Lemma optimize_loop_converges k tractor var :
  converges_at k tractor var ->
  forall n flux_var, k <= n ->
    optimize_loop n tractor flux_var = (repeat (Optimize true) k, Ok (Some var)).
Proof.
  induction 1 as [tractor dlnp X alpha var tractor' Hopt Hstop
                 | k tractor dlnp X alpha var0 tractor' var Hopt Hgo _ IH];
    intros n flux_var Hk; (destruct n as [|n]; [lia|]);
    rewrite optimize_loop_step, Hopt.
  - now rewrite Hstop.
  - rewrite Hgo, (IH n (Some var0)) by lia. reflexivity.
Qed.

Lemma optimize_loop_exhausted n tractor var :
  never_converges n tractor var ->
  forall flux_var,
    optimize_loop n tractor flux_var = (repeat (Optimize true) n, Ok (Some var)).
Proof.
  induction 1 as [tractor dlnp X alpha var tractor' Hopt Hgo
                 | n tractor dlnp X alpha var0 tractor' var Hopt Hgo _ IH];
    intros flux_var; rewrite optimize_loop_step, Hopt, Hgo.
  - reflexivity.
  - rewrite (IH (Some var0)). reflexivity.
Qed.

Variables (subimage : Img) (prf : Psf) (objsrc : Sources) (skymean skynoise : float).

Lemma open_devnull_cases :
  open_devnull = Ok tt \/ exists e, open_devnull = Raise e.
Proof.
  destruct open_devnull as [[]|e]; [left|right; exists e]; reflexivity.
Qed.

(** [run_tractor] around its loop, once the null device is open. *)
Lemma run_tractor_after_build tractor :
  new_tractor subimage prf objsrc skymean skynoise = Ok tractor ->
  open_devnull = Ok tt ->
  run_tractor subimage prf objsrc skymean skynoise =
    let loop := optimize_loop 20 tractor None in
    (NewTractor :: StdoutToDevnull :: trace loop ++ [StdoutRestored],
     match outcome loop with
     | Ok (Some var) => Ok (var, false)
     | Ok None => Raise UnboundLocalError
     | Raise e => if isinstance_Exception e then Ok (Scalar nan, true) else Raise e
     end).
Proof.
  intros Hbuild Hdevnull. unfold Fit.run_tractor, suppress_stdout, try_finally.
  rewrite Hdevnull.
  cbn [bind lift emit ret app]. rewrite Hbuild. cbn [bind lift emit ret app].
  destruct (Fit.optimize_loop optimize 20 tractor None) as [t [[var|]|e]];
    cbn [bind lift emit ret raise app try_except_Exception trace outcome fst snd];
    rewrite ?app_nil_r; try reflexivity.
  destruct (isinstance_Exception e);
    cbn [bind lift emit ret raise app]; rewrite ?app_nil_r; reflexivity.
Qed.

(** When the null device cannot be opened, the exception is raised inside
    the [try]: no step is run and standard output is left alone. *)
Lemma run_tractor_devnull_fails tractor e :
  new_tractor subimage prf objsrc skymean skynoise = Ok tractor ->
  open_devnull = Raise e ->
  run_tractor subimage prf objsrc skymean skynoise =
    ([NewTractor],
     if isinstance_Exception e then Ok (Scalar nan, true) else Raise e).
Proof.
  intros Hbuild Hdevnull. unfold Fit.run_tractor, suppress_stdout.
  rewrite Hdevnull.
  cbn [bind lift emit ret app]. rewrite Hbuild.
  cbn [bind lift emit ret raise app try_except_Exception].
  destruct (isinstance_Exception e); reflexivity.
Qed.

(** Once the tractor object is built, the caller gets a pair, or an
    exception that is not an [Exception]. *)
Lemma run_tractor_outcome_cases tractor :
  new_tractor subimage prf objsrc skymean skynoise = Ok tractor ->
  let call := run_tractor subimage prf objsrc skymean skynoise in
  (exists var, outcome call = Ok (var, false))
  \/ outcome call = Ok (Scalar nan, true)
  \/ (exists e, isinstance_Exception e = false /\ outcome call = Raise e).
Proof.
  intros Hbuild. cbv zeta.
  destruct open_devnull_cases as [Hdevnull|[e0 Hdevnull]].
  - rewrite (run_tractor_after_build Hbuild Hdevnull). cbv zeta.
    cbn [outcome snd].
    destruct (outcome (optimize_loop 20 tractor None)) as [r|e] eqn:Hloop.
    + destruct (optimize_loop_binds _ _ _ Hloop) as [var ->].
      left. exists var. reflexivity.
    + destruct (isinstance_Exception e) eqn:Hclass.
      * right; left. reflexivity.
      * right; right. exists e. split; [exact Hclass|reflexivity].
  - rewrite (run_tractor_devnull_fails Hbuild Hdevnull). cbn [outcome snd].
    destruct (isinstance_Exception e0) eqn:Hclass.
    + right; left. reflexivity.
    + right; right. exists e0. split; [exact Hclass|reflexivity].
Qed.

Lemma run_tractor_build_fails e :
  new_tractor subimage prf objsrc skymean skynoise = Raise e ->
  run_tractor subimage prf objsrc skymean skynoise = ([NewTractor], Raise e).
Proof.
  intros Hbuild. unfold Fit.run_tractor.
  cbn [bind lift emit ret app]. now rewrite Hbuild.
Qed.

Lemma optimize_calls_run_tractor :
  exists k, k <= 20 /\
    optimize_calls (trace (run_tractor subimage prf objsrc skymean skynoise))
      = repeat true k.
Proof.
  destruct (new_tractor subimage prf objsrc skymean skynoise) as [tractor|e] eqn:Hbuild.
  - destruct open_devnull_cases as [Hdevnull|[e0 Hdevnull]].
    2:{ rewrite (run_tractor_devnull_fails Hbuild Hdevnull).
        exists 0. split; [lia|reflexivity]. }
    rewrite (run_tractor_after_build Hbuild Hdevnull).
    cbv zeta. cbn [trace fst optimize_calls].
    destruct (optimize_loop_trace 20 tractor None) as (k & Hk & ->).
    exists k. split; [exact Hk|].
    induction k as [|k IH]; [reflexivity|].
    cbn [repeat app optimize_calls]. rewrite IH by lia. reflexivity.
  - rewrite (run_tractor_build_fails Hbuild). exists 0. split; [lia|reflexivity].
Qed.

Lemma steps_run_tractor tractor k :
  new_tractor subimage prf objsrc skymean skynoise = Ok tractor ->
  open_devnull = Ok tt ->
  trace (optimize_loop 20 tractor None) = repeat (Optimize true) k ->
  steps (trace (run_tractor subimage prf objsrc skymean skynoise)) = k.
Proof.
  intros Hbuild Hdevnull Htr. rewrite (run_tractor_after_build Hbuild Hdevnull). cbv zeta.
  cbn [trace fst]. rewrite Htr. unfold steps. cbn [optimize_calls].
  clear Htr. induction k as [|k IH]; [reflexivity|].
  cbn [repeat app optimize_calls List.length]. now rewrite IH.
Qed.

(** C4, as amended.  An exception raised during the optimisation steps that
    is an instance of [Exception] is caught: the call returns normally with a
    not-a-number variance and [fit_fail = True].  An exception outside that
    class ([KeyboardInterrupt], [SystemExit], [GeneratorExit]) is not caught
    and reaches the caller.  Either way standard output has been restored.
    The steps are run once the tractor object is built and the null device
    is open. *)
Theorem optimisation_exception_caught
    (tractor : Tractor) (e : exn)
    (Hbuild : new_tractor subimage prf objsrc skymean skynoise = Ok tractor)
    (Hdevnull : open_devnull = Ok tt)
    (Hraise : raises_within 20 tractor e) :
  let call := run_tractor subimage prf objsrc skymean skynoise in
  outcome call =
    (if isinstance_Exception e then Ok (Scalar nan, true) else Raise e)
  /\ exists t, trace call = NewTractor :: StdoutToDevnull :: t ++ [StdoutRestored].
Proof.
  cbv zeta. rewrite (run_tractor_after_build Hbuild Hdevnull). cbv zeta.
  cbn [outcome trace fst snd].
  change (snd (optimize_loop 20 tractor None))
    with (outcome (optimize_loop 20 tractor None)).
  rewrite (optimize_loop_raises Hraise None).
  split; [reflexivity|]. eexists. reflexivity.
Qed.

(** C5. The loop performs at most 20 optimisation steps.  It stops at the
    first step that reports [dlnp < 1e-3]: if that is step [k] then exactly
    [k] steps are performed, so exactly one when the first step meets the
    criterion.  Twenty steps that never meet it end the loop with
    [fit_fail = False] and the variance of the last step.  The bound holds
    of every call; the steps are run once the tractor object is built and
    the null device is open. *)
Theorem optimisation_loop_bounded :
  let call := run_tractor subimage prf objsrc skymean skynoise in
  steps (trace call) <= 20
  /\ forall tractor,
       new_tractor subimage prf objsrc skymean skynoise = Ok tractor ->
       open_devnull = Ok tt ->
       (forall dlnp X alpha var tractor',
          optimize true tractor = Ok (dlnp, X, alpha, var, tractor') ->
          (dlnp <? dlnp_tol)%float = true ->
          steps (trace call) = 1 /\ outcome call = Ok (var, false))
       /\ (forall k var,
             converges_at k tractor var -> k <= 20 ->
             steps (trace call) = k /\ outcome call = Ok (var, false))
       /\ (forall var,
             never_converges 20 tractor var ->
             steps (trace call) = 20 /\ outcome call = Ok (var, false)).
Proof.
  cbv zeta. split.
  - destruct optimize_calls_run_tractor as (k & Hk & Hcalls).
    unfold steps. rewrite Hcalls, repeat_length. exact Hk.
  - intros tractor Hbuild Hdevnull.
    assert (Hconv :
      forall k var, converges_at k tractor var -> k <= 20 ->
        steps (trace (run_tractor subimage prf objsrc skymean skynoise)) = k /\
        outcome (run_tractor subimage prf objsrc skymean skynoise) = Ok (var, false)).
    { intros k var Hat Hk.
      pose proof (optimize_loop_converges Hat None Hk) as Hloop.
      split.
      - eapply steps_run_tractor; [exact Hbuild|exact Hdevnull|]. now rewrite Hloop.
      - rewrite (run_tractor_after_build Hbuild Hdevnull). cbv zeta. now rewrite Hloop. }
    split; [|split].
    + intros dlnp X alpha var tractor' Hopt Hstop.
      apply Hconv; [|lia]. eapply converges_now; eassumption.
    + exact Hconv.
    + intros var Hnever.
      pose proof (optimize_loop_exhausted Hnever None) as Hloop.
      split.
      * eapply steps_run_tractor; [exact Hbuild|exact Hdevnull|]. now rewrite Hloop.
      * rewrite (run_tractor_after_build Hbuild Hdevnull). cbv zeta. now rewrite Hloop.
Qed.

(** C8, as amended.  Every optimisation step calls [optimize] with
    [variance=True]: each step asks for [dlnp] and for the variance vector
    alike.  The variance returned is the one reported by the last step
    performed.  The steps are run once the tractor object is built and the
    null device is open. *)
Theorem every_step_requests_variance :
  let call := run_tractor subimage prf objsrc skymean skynoise in
  forallb (fun variance => variance) (optimize_calls (trace call)) = true
  /\ forall tractor,
       new_tractor subimage prf objsrc skymean skynoise = Ok tractor ->
       open_devnull = Ok tt ->
       (forall k var,
          converges_at k tractor var -> k <= 20 -> outcome call = Ok (var, false))
       /\ (forall var,
             never_converges 20 tractor var -> outcome call = Ok (var, false)).
Proof.
  cbv zeta. split.
  - destruct optimize_calls_run_tractor as (k & _ & ->).
    induction k as [|k IH]; [reflexivity|exact IH].
  - intros tractor Hbuild Hdevnull. split.
    + intros k var Hat Hk.
      rewrite (run_tractor_after_build Hbuild Hdevnull). cbv zeta.
      now rewrite (optimize_loop_converges Hat None Hk).
    + intros var Hnever.
      rewrite (run_tractor_after_build Hbuild Hdevnull). cbv zeta.
      now rewrite (optimize_loop_exhausted Hnever None).
Qed.

End FitSpec.

Section FitScenarios.

Import Fit.

(** C4, as stated, fails on an exception that is not an [Exception]: a
    keyboard interrupt during the second step passes through [run_tractor]
    to its caller. *)
Lemma keyboard_interrupt_propagates :
  raises_within Scenario.optimize 20 Scenario.interrupted KeyboardInterrupt
  /\ Scenario.run_tractor Scenario.interrupted
     = ([NewTractor; StdoutToDevnull; Optimize true; Optimize true; StdoutRestored],
        Raise KeyboardInterrupt).
Proof.
  split; [|reflexivity].
  eapply raises_later; [reflexivity|reflexivity|].
  apply raises_now. reflexivity.
Qed.

Lemma optimisation_exception_caught_witness :
  outcome (Scenario.run_tractor Scenario.singular) = Ok (Scalar nan, true)
  /\ exists t,
       trace (Scenario.run_tractor Scenario.singular)
         = NewTractor :: StdoutToDevnull :: t ++ [StdoutRestored].
Proof.
  refine (@optimisation_exception_caught
            Scenario.script unit unit Scenario.script unit
            Scenario.new_tractor Scenario.optimize (Ok tt)
            Scenario.singular tt tt 0%float 1%float
            Scenario.singular LinAlgError _ _ _).
  - reflexivity.
  - reflexivity.
  - eapply raises_later; [reflexivity|reflexivity|].
    apply raises_now. reflexivity.
Defined.

Lemma optimisation_loop_bounded_witness :
  (steps (trace (Scenario.run_tractor Scenario.converged_at_once)) = 1
   /\ outcome (Scenario.run_tractor Scenario.converged_at_once)
      = Ok (Array [1; 1; 4]%float, false))
  /\ (steps (trace (Scenario.run_tractor Scenario.two_steps)) = 2
      /\ outcome (Scenario.run_tractor Scenario.two_steps)
         = Ok (Array [1; 1; 4]%float, false))
  /\ (steps (trace (Scenario.run_tractor Scenario.slow)) = 20
      /\ outcome (Scenario.run_tractor Scenario.slow)
         = Ok (Array [1; 1; 4]%float, false)).
Proof.
  split; [|split].
  - refine (proj1 (proj2 (@optimisation_loop_bounded
              Scenario.script unit unit Scenario.script unit
              Scenario.new_tractor Scenario.optimize (Ok tt)
              Scenario.converged_at_once tt tt 0%float 1%float)
            Scenario.converged_at_once eq_refl eq_refl)
            0%float tt tt (Array [1; 1; 4]%float) [] _ _);
      reflexivity.
  - refine (proj1 (proj2 (proj2 (@optimisation_loop_bounded
              Scenario.script unit unit Scenario.script unit
              Scenario.new_tractor Scenario.optimize (Ok tt)
              Scenario.two_steps tt tt 0%float 1%float)
            Scenario.two_steps eq_refl eq_refl))
            2 (Array [1; 1; 4]%float) _ _).
    + eapply converges_later; [reflexivity|reflexivity|].
      eapply converges_now; reflexivity.
    + lia.
  - refine (proj2 (proj2 (proj2 (@optimisation_loop_bounded
              Scenario.script unit unit Scenario.script unit
              Scenario.new_tractor Scenario.optimize (Ok tt)
              Scenario.slow tt tt 0%float 1%float)
            Scenario.slow eq_refl eq_refl))
            (Array [1; 1; 4]%float) _).
    do 19 (eapply never_more; [reflexivity|reflexivity|]).
    eapply never_one; reflexivity.
Defined.

(** C8, as stated, fails as soon as a fit takes two steps: the first step,
    which is not the final one, asks for the variance as well. *)
Lemma first_step_requests_variance :
  optimize_calls (trace (Scenario.run_tractor Scenario.two_steps)) = [true; true]
  /\ variance_only_on_final
       (optimize_calls (trace (Scenario.run_tractor Scenario.two_steps)))
     = false.
Proof.
  split; reflexivity.
Qed.

Lemma every_step_requests_variance_witness :
  forallb (fun variance => variance)
    (optimize_calls (trace (Scenario.run_tractor Scenario.two_steps))) = true
  /\ outcome (Scenario.run_tractor Scenario.two_steps)
     = Ok (Array [1; 1; 4]%float, false).
Proof.
  pose proof (@every_step_requests_variance
                Scenario.script unit unit Scenario.script unit
                Scenario.new_tractor Scenario.optimize (Ok tt)
                Scenario.two_steps tt tt 0%float 1%float) as [Hcalls Hret].
  split; [exact Hcalls|].
  refine (proj1 (Hret Scenario.two_steps eq_refl eq_refl) 2 (Array [1; 1; 4]%float) _ _).
  - eapply converges_later; [reflexivity|reflexivity|].
    eapply converges_now; reflexivity.
  - lia.
Defined.

End FitScenarios.

(* ================================================================== *)
(** * Further properties of the result reader *)

Lemma index_from_absent (l : list string) (x : string) :
  ~ In x l -> forall k, index_from l x k = Raise ValueError.
Proof.
  induction l as [|y l IH]; intros Hnot k; [reflexivity|].
  cbn [index_from].
  destruct (String.eqb y x) eqn:Heq.
  - apply String.eqb_eq in Heq. exfalso. apply Hnot. now left.
  - apply IH. intros Hin. apply Hnot. now right.
Qed.

Lemma getitem_head {A} (a : A) (l : list A) : getitem (a :: l) 0 = Ok a.
Proof.
  destruct (@getitem_in_bounds A (a :: l) 0%Z) as (b & Hnth & Hget).
  - cbn [List.length]. lia.
  - cbn in Hnth. injection Hnth as <-. exact Hget.
Qed.

(** The square root of a negative float is not a number. *)
Lemma sqrt_negative (x : float) : (x <? 0)%float = true -> sqrt x = nan.
Proof.
  intros Hneg. apply Prim2SF_inj. rewrite sqrt_spec.
  rewrite ltb_spec in Hneg.
  change (Prim2SF 0) with (S754_zero false) in Hneg.
  change (Prim2SF nan) with S754_nan.
  destruct (Prim2SF x) as [s| [|] | |[|] m e]; cbn in Hneg;
    try discriminate; reflexivity.
Qed.

Lemma nan_mul (y : float) : (nan * y)%float = nan.
Proof.
  apply Prim2SF_inj. rewrite mul_spec.
  change (Prim2SF nan) with S754_nan. reflexivity.
Qed.

Section ResultsMore.

Import Results.

Variables (flux_var : value) (flux_conv : float) (nconfsrcs : Z).

(** X1. When the fit did not fail and [objsrc[0]] has no parameter named
    ["brightness.Flux"], the call raises [ValueError], whatever the variance:
    the names of the source were read, its values were not. *)
Theorem interpret_missing_flux_name
    (objsrc : list Source) (target : Source)
    (Htarget : getitem objsrc 0 = Ok target)
    (Hmissing : ~ In "brightness.Flux"%string (getParamNames target)) :
  interpret_tractor_results flux_var flux_conv false objsrc nconfsrcs
    = ([GetParamNames 0], Raise ValueError).
Proof.
  unfold interpret_tractor_results.
  destruct flux_var; cbn [bind lift emit ret];
    rewrite Htarget; cbn [bind lift emit ret app];
    unfold list_index; rewrite (@index_from_absent _ _ Hmissing);
    reflexivity.
Qed.

(** X2. When the fit did not fail and the source list is empty, the call
    raises [IndexError] before any parameter is read, whatever the
    variance. *)
Theorem interpret_no_sources :
  interpret_tractor_results flux_var flux_conv false [] nconfsrcs
    = ([], Raise IndexError).
Proof.
  unfold interpret_tractor_results. destruct flux_var; reflexivity.
Qed.

(** X3. Only [objsrc[0]] is read: the sources after the first one change
    neither the result nor the reads. *)
Theorem interpret_reads_first_source_only
    (fit_fail : bool) (target : Source) (others others' : list Source) :
  interpret_tractor_results flux_var flux_conv fit_fail (target :: others) nconfsrcs
    = interpret_tractor_results flux_var flux_conv fit_fail (target :: others') nconfsrcs.
Proof.
  unfold interpret_tractor_results.
  destruct fit_fail; [reflexivity|].
  destruct flux_var; rewrite !getitem_head; reflexivity.
Qed.

(** X4. A call that did not fail returns exactly when the flux of
    [objsrc[0]] can be read by name and, for a variance that is not [None],
    the variance can be indexed at [((nconfsrcs + 1) * 3) - 1]; the pair
    returned is then built from those two values. *)
Theorem interpret_returns_iff (objsrc : list Source) (r : float * float) :
  outcome (interpret_tractor_results flux_var flux_conv false objsrc nconfsrcs) = Ok r
  <->
  exists target bindex flux,
    getitem objsrc 0 = Ok target /\
    list_index (getParamNames target) "brightness.Flux" = Ok bindex /\
    getitem (getParams target) bindex = Ok flux /\
    match flux_var with
    | None_ => r = (flux * flux_conv, nan)%float
    | _ =>
        exists x,
          subscript flux_var ((nconfsrcs + 1) * 3 - 1) = Ok x /\
          r = (flux * flux_conv, sqrt x * flux_conv)%float
    end.
Proof.
  split.
  - destruct (getitem objsrc 0) as [target|e] eqn:Htarget.
    2:{ unfold interpret_tractor_results.
        destruct flux_var; cbn [bind lift emit ret]; rewrite Htarget; discriminate. }
    destruct (list_index (getParamNames target) "brightness.Flux") as [bindex|e] eqn:Hname.
    2:{ unfold interpret_tractor_results.
        destruct flux_var; cbn [bind lift emit ret]; rewrite Htarget;
          cbn [bind lift emit ret app]; rewrite Hname; discriminate. }
    destruct (getitem (getParams target) bindex) as [flux|e] eqn:Hflux.
    2:{ unfold interpret_tractor_results.
        destruct flux_var; cbn [bind lift emit ret]; rewrite Htarget;
          cbn [bind lift emit ret app]; rewrite Hname;
          cbn [bind lift emit ret app]; rewrite Hflux; discriminate. }
    rewrite (interpret_reads_flux _ _ _ _ Htarget Hname Hflux).
    intros Hret. exists target, bindex, flux.
    split; [reflexivity|]. split; [exact Hname|]. split; [exact Hflux|].
    destruct flux_var as [|x|x|v]; cbn [outcome snd] in Hret.
    + now injection Hret as <-.
    + discriminate.
    + discriminate.
    + destruct (subscript (Array v) ((nconfsrcs + 1) * 3 - 1)) as [x|e]; [|discriminate].
      exists x. split; [reflexivity|]. now injection Hret as <-.
  - intros (target & bindex & flux & Htarget & Hname & Hflux & Hr).
    rewrite (interpret_reads_flux _ _ _ _ Htarget Hname Hflux).
    destruct flux_var as [|x|x|v].
    + now subst r.
    + destruct Hr as (y & Hsub & _). discriminate.
    + destruct Hr as (y & Hsub & _). discriminate.
    + destruct Hr as (y & Hsub & ->). cbn [outcome snd]. now rewrite Hsub.
Qed.

End ResultsMore.

Section ResultsNegativeVariance.

Import Results.

(** X5. A negative entry at the flux position of the variance vector does
    not make the call fail: the flux is returned as usual and the
    uncertainty is not a number. *)
Theorem interpret_negative_variance
    (flux_var : list float) (flux_conv : float) (objsrc : list Source) (nconfsrcs : Z)
    (target : Source) (bindex : Z) (flux variance : float)
    (Htarget : getitem objsrc 0 = Ok target)
    (Hname : list_index (getParamNames target) "brightness.Flux" = Ok bindex)
    (Hflux : getitem (getParams target) bindex = Ok flux)
    (Hvar : getitem flux_var ((nconfsrcs + 1) * 3 - 1) = Ok variance)
    (Hneg : (variance <? 0)%float = true) :
  outcome (interpret_tractor_results (Array flux_var) flux_conv false objsrc nconfsrcs)
    = Ok (flux * flux_conv, nan)%float.
Proof.
  rewrite (interpret_reads_flux _ _ _ _ Htarget Hname Hflux).
  cbn [subscript outcome snd]. rewrite Hvar.
  now rewrite (sqrt_negative Hneg), nan_mul.
Qed.

Lemma interpret_missing_flux_name_witness :
  interpret_tractor_results None_ 1 false [Scenario.position_only 10 12] 0
    = ([GetParamNames 0], Raise ValueError).
Proof.
  apply (@interpret_missing_flux_name None_ 1%float 0%Z
           [Scenario.position_only 10 12] (Scenario.position_only 10 12)).
  - reflexivity.
  - cbn. intros [H|[H|[]]]; discriminate H.
Defined.

Lemma interpret_negative_variance_witness :
  outcome (interpret_tractor_results
             (Array [1; 1; -4]%float) 2 false [Scenario.point_source 10 12 5] 0)
    = Ok (10, nan)%float.
Proof.
  apply (@interpret_negative_variance
           [1; 1; -4]%float 2%float [Scenario.point_source 10 12 5] 0%Z
           (Scenario.point_source 10 12 5) 2%Z 5%float (-4)%float);
    reflexivity.
Defined.

End ResultsNegativeVariance.

(* ================================================================== *)
(** * Further properties of the optimisation loop *)

Section FitMore.

Import Fit.

Variables Img Psf Sources Tractor Step : Type.
Variable new_tractor : Img -> Psf -> Sources -> float -> float -> result Tractor.
Variable optimize :
  bool -> Tractor -> result (float * Step * Step * value * Tractor).

Local Abbreviation optimize_loop := (optimize_loop optimize).
Local Abbreviation raises_within := (raises_within optimize).
Local Abbreviation converges_at := (converges_at optimize).
Local Abbreviation never_converges := (never_converges optimize).

Lemma optimize_loop_raises_inv n :
  forall tractor flux_var e,
    outcome (optimize_loop n tractor flux_var) = Raise e -> raises_within n tractor e.
Proof.
  induction n as [|n IH]; intros tractor flux_var e; [discriminate|].
  rewrite optimize_loop_step.
  destruct (optimize true tractor) as [[[[[dlnp X] alpha] var] tractor']|e'] eqn:Hopt.
  - destruct (dlnp <? dlnp_tol)%float eqn:Hstop; [discriminate|].
    cbn [outcome snd]. intros Hrest.
    eapply raises_later; [exact Hopt|exact Hstop|].
    exact (IH _ _ _ Hrest).
  - cbn. intros [= ->]. now apply raises_now.
Qed.

Lemma optimize_loop_returns_inv n :
  forall tractor flux_var var,
    outcome (optimize_loop (S n) tractor flux_var) = Ok (Some var) ->
    (exists k, k <= S n /\ converges_at k tractor var)
    \/ never_converges (S n) tractor var.
Proof.
  induction n as [|n IH]; intros tractor flux_var var; rewrite optimize_loop_step;
    (destruct (optimize true tractor) as [[[[[dlnp X] alpha] var0] tractor']|e] eqn:Hopt;
     [|discriminate]);
    (destruct (dlnp <? dlnp_tol)%float eqn:Hstop;
     [cbn; intros [= <-]; left; exists 1; split; [lia|];
      eapply converges_now; eassumption|]).
  - cbn. intros [= <-]. right. eapply never_one; eassumption.
  - cbn [outcome snd]. intros Hrest.
    destruct (IH _ _ _ Hrest) as [(k & Hk & Hat)|Hnever].
    + left. exists (S k). split; [lia|].
      eapply converges_later; eassumption.
    + right. eapply never_more; eassumption.
Qed.

Lemma optimize_loop_trace_pos n tractor flux_var :
  exists k, 1 <= k <= S n /\
    trace (optimize_loop (S n) tractor flux_var) = repeat (Optimize true) k.
Proof.
  rewrite optimize_loop_step.
  destruct (optimize true tractor) as [[[[[dlnp X] alpha] var] tractor']|e].
  - destruct (dlnp <? dlnp_tol)%float.
    + exists 1. split; [lia|reflexivity].
    + destruct (optimize_loop_trace optimize n tractor' (Some var)) as (k & Hk & Htr).
      exists (S k). split; [lia|]. cbn [trace fst repeat]. now rewrite Htr.
  - exists 1. split; [lia|reflexivity].
Qed.

Variable open_devnull : result unit.
Variables (subimage : Img) (prf : Psf) (objsrc : Sources) (skymean skynoise : float).

Local Abbreviation run_tractor := (Fit.run_tractor new_tractor optimize open_devnull).

(** X6. An exception raised while the tractor object is built (the image,
    the tractor, the freezing of the image parameters) is not caught, of
    whatever class: it reaches the caller, no optimisation step is run and
    standard output is never redirected. *)
Theorem construction_failure_propagates (e : exn)
    (Hbuild : new_tractor subimage prf objsrc skymean skynoise = Raise e) :
  let call := run_tractor subimage prf objsrc skymean skynoise in
  outcome call = Raise e
  /\ steps (trace call) = 0
  /\ ~ In StdoutToDevnull (trace call).
Proof.
  cbv zeta.
  rewrite (@run_tractor_build_fails _ _ _ _ _ new_tractor optimize open_devnull
             subimage prf objsrc skymean skynoise e Hbuild).
  cbn. repeat split. intros [H|[]]. discriminate H.
Qed.

(** X7. Once the tractor object is built: if the null device opens,
    standard output is redirected once, between one and twenty optimisation
    steps are run while it is redirected, each with [variance=True], and it
    is restored last, however the loop ends; if the null device cannot be
    opened, standard output is not redirected, no step is run, and the
    exception is handled as one raised by a step: an instance of [Exception]
    gives [(nan, True)], any other reaches the caller. *)
Theorem stdout_redirected_around_steps (tractor : Tractor)
    (Hbuild : new_tractor subimage prf objsrc skymean skynoise = Ok tractor) :
  (open_devnull = Ok tt ->
   exists k, 1 <= k <= 20 /\
     trace (run_tractor subimage prf objsrc skymean skynoise)
       = NewTractor :: StdoutToDevnull :: repeat (Optimize true) k ++ [StdoutRestored])
  /\ (forall e, open_devnull = Raise e ->
      run_tractor subimage prf objsrc skymean skynoise
        = ([NewTractor],
           if isinstance_Exception e then Ok (Scalar nan, true) else Raise e)).
Proof.
  split.
  - intros Hdevnull.
    rewrite (@run_tractor_after_build _ _ _ _ _ new_tractor optimize open_devnull
               subimage prf objsrc skymean skynoise tractor Hbuild Hdevnull).
    cbv zeta. cbn [trace fst].
    destruct (optimize_loop_trace_pos 19 tractor None) as (k & Hk & Htr).
    exists k. split; [exact Hk|].
    change (fst (optimize_loop 20 tractor None))
      with (trace (optimize_loop 20 tractor None)).
    now rewrite Htr.
  - intros e Hdevnull.
    exact (@run_tractor_devnull_fails _ _ _ _ _ new_tractor optimize open_devnull
             subimage prf objsrc skymean skynoise tractor e Hbuild Hdevnull).
Qed.

(** X8. Once the tractor object is built, [run_tractor] reports
    [fit_fail = True] exactly when an instance of [Exception] was raised
    inside the [try]: by the opening of the null device, or by an
    optimisation step.  The variance it returns is then the scalar
    not-a-number, whatever variance earlier steps had reported. *)
Theorem fit_fail_iff_exception (tractor : Tractor)
    (Hbuild : new_tractor subimage prf objsrc skymean skynoise = Ok tractor) :
  forall flux_var,
    outcome (run_tractor subimage prf objsrc skymean skynoise) = Ok (flux_var, true)
    <->
    flux_var = Scalar nan /\
    exists e,
      isinstance_Exception e = true /\
      (open_devnull = Raise e
       \/ (open_devnull = Ok tt /\ raises_within 20 tractor e)).
Proof.
  intros flux_var.
  destruct (open_devnull_cases open_devnull) as [Hdevnull|[e0 Hdevnull]].
  - rewrite (@run_tractor_after_build _ _ _ _ _ new_tractor optimize open_devnull
               subimage prf objsrc skymean skynoise tractor Hbuild Hdevnull).
    cbv zeta. cbn [outcome snd].
    change (snd (optimize_loop 20 tractor None))
      with (outcome (optimize_loop 20 tractor None)).
    split.
    + destruct (outcome (optimize_loop 20 tractor None)) as [[var|]|e] eqn:Hloop;
        try discriminate.
      destruct (isinstance_Exception e) eqn:Hclass; [|discriminate].
      intros [= <-]. split; [reflexivity|].
      exists e. split; [exact Hclass|]. right. split; [exact Hdevnull|].
      exact (optimize_loop_raises_inv _ _ _ Hloop).
    + intros (-> & e & Hclass & [Hfail|[_ Hraise]]).
      * rewrite Hdevnull in Hfail. discriminate.
      * rewrite (optimize_loop_raises Hraise None). now rewrite Hclass.
  - rewrite (@run_tractor_devnull_fails _ _ _ _ _ new_tractor optimize open_devnull
               subimage prf objsrc skymean skynoise tractor e0 Hbuild Hdevnull).
    cbn [outcome snd]. split.
    + destruct (isinstance_Exception e0) eqn:Hclass; [|discriminate].
      intros [= <-]. split; [reflexivity|].
      exists e0. split; [exact Hclass|]. left. exact Hdevnull.
    + intros (-> & e & Hclass & [Hfail|[Hopen _]]).
      * rewrite Hdevnull in Hfail. injection Hfail as ->. now rewrite Hclass.
      * rewrite Hdevnull in Hopen. discriminate.
Qed.

(** X9. Once the tractor object is built, [run_tractor] returns
    [(var, False)] exactly when the null device opens, no step raises and
    [var] is the variance of the last step run: the first step to report
    [dlnp < 1e-3], or the twentieth. *)
Theorem fit_succeeds_iff (tractor : Tractor)
    (Hbuild : new_tractor subimage prf objsrc skymean skynoise = Ok tractor) :
  forall var,
    outcome (run_tractor subimage prf objsrc skymean skynoise) = Ok (var, false)
    <->
    open_devnull = Ok tt /\
    ((exists k, k <= 20 /\ converges_at k tractor var)
     \/ never_converges 20 tractor var).
Proof.
  intros var.
  destruct (open_devnull_cases open_devnull) as [Hdevnull|[e0 Hdevnull]].
  - rewrite (@run_tractor_after_build _ _ _ _ _ new_tractor optimize open_devnull
               subimage prf objsrc skymean skynoise tractor Hbuild Hdevnull).
    cbv zeta. cbn [outcome snd].
    change (snd (optimize_loop 20 tractor None))
      with (outcome (optimize_loop 20 tractor None)).
    split.
    + destruct (outcome (optimize_loop 20 tractor None)) as [[var'|]|e] eqn:Hloop.
      * intros [= ->]. split; [exact Hdevnull|].
        eapply optimize_loop_returns_inv. exact Hloop.
      * discriminate.
      * destruct (isinstance_Exception e); discriminate.
    + intros [_ [(k & Hk & Hat)|Hnever]].
      * now rewrite (optimize_loop_converges Hat None Hk).
      * now rewrite (optimize_loop_exhausted Hnever None).
  - rewrite (@run_tractor_devnull_fails _ _ _ _ _ new_tractor optimize open_devnull
               subimage prf objsrc skymean skynoise tractor e0 Hbuild Hdevnull).
    cbn [outcome snd]. split.
    + destruct (isinstance_Exception e0); discriminate.
    + intros [Hopen _]. rewrite Hdevnull in Hopen. discriminate.
Qed.

(** X10. An improvement that is not a number never meets the convergence
    test: if every step returns [dlnp = nan], all twenty steps are run and the
    fit is reported as not failed, with the variance reported by the
    twentieth step, the one taken from the tractor object as the nineteen
    steps before it left it. *)
Theorem nan_improvement_runs_all_steps (tractor : Tractor)
    (X alpha : Tractor -> Step) (var : Tractor -> value) (next : Tractor -> Tractor)
    (Hbuild : new_tractor subimage prf objsrc skymean skynoise = Ok tractor)
    (Hdevnull : open_devnull = Ok tt)
    (Hnan : forall t, optimize true t = Ok (nan, X t, alpha t, var t, next t)) :
  let call := run_tractor subimage prf objsrc skymean skynoise in
  steps (trace call) = 20
  /\ outcome call = Ok (var (Nat.iter 19 next tractor), false).
Proof.
  cbv zeta.
  assert (Hnever : forall n t, never_converges (S n) t (var (Nat.iter n next t))).
  { induction n as [|n IH]; intros t.
    - eapply never_one; [apply Hnan|reflexivity].
    - rewrite Nat.iter_succ_r.
      eapply never_more; [apply Hnan|reflexivity|apply IH]. }
  pose proof (optimize_loop_exhausted (Hnever 19 tractor) None) as Hloop.
  split.
  - eapply steps_run_tractor; [exact Hbuild|exact Hdevnull|]. now rewrite Hloop.
  - rewrite (@run_tractor_after_build _ _ _ _ _ new_tractor optimize open_devnull
               subimage prf objsrc skymean skynoise tractor Hbuild Hdevnull).
    cbv zeta. now rewrite Hloop.
Qed.

(** X11. When an instance of [Exception] is raised inside the [try], by the
    opening of the null device or by an optimisation step, what
    [run_tractor] returns makes [interpret_tractor_results] return
    [(nan, nan)]: no source parameter is read and the not-a-number variance
    is never indexed. *)
Theorem failed_fit_reads_as_nan (tractor : Tractor) (e : exn)
    (Hbuild : new_tractor subimage prf objsrc skymean skynoise = Ok tractor)
    (Hraise : open_devnull = Raise e
              \/ (open_devnull = Ok tt /\ raises_within 20 tractor e))
    (Hclass : isinstance_Exception e = true) :
  forall (flux_conv : float) (sources : list Results.Source) (nconfsrcs : Z),
  exists flux_var fit_fail,
    outcome (run_tractor subimage prf objsrc skymean skynoise) = Ok (flux_var, fit_fail)
    /\ Results.interpret_tractor_results flux_var flux_conv fit_fail sources nconfsrcs
       = ([], Ok (nan, nan)).
Proof.
  intros flux_conv sources nconfsrcs.
  exists (Scalar nan), true. split; [|reflexivity].
  destruct Hraise as [Hdevnull|[Hdevnull Hsteps]].
  - rewrite (@run_tractor_devnull_fails _ _ _ _ _ new_tractor optimize open_devnull
               subimage prf objsrc skymean skynoise tractor e Hbuild Hdevnull).
    cbn [outcome snd]. now rewrite Hclass.
  - rewrite (@run_tractor_after_build _ _ _ _ _ new_tractor optimize open_devnull
               subimage prf objsrc skymean skynoise tractor Hbuild Hdevnull).
    cbv zeta. cbn [outcome snd].
    change (snd (optimize_loop 20 tractor None))
      with (outcome (optimize_loop 20 tractor None)).
    rewrite (optimize_loop_raises Hsteps None). now rewrite Hclass.
Qed.

End FitMore.

Section FitMoreScenarios.

Import Fit.

Lemma construction_failure_propagates_witness :
  outcome (run_tractor Scenario.new_tractor_fails Scenario.optimize (Ok tt)
             Scenario.two_steps tt tt 0 1) = Raise ValueError
  /\ steps (trace (run_tractor Scenario.new_tractor_fails Scenario.optimize (Ok tt)
                    Scenario.two_steps tt tt 0 1)) = 0
  /\ ~ In StdoutToDevnull
       (trace (run_tractor Scenario.new_tractor_fails Scenario.optimize (Ok tt)
                 Scenario.two_steps tt tt 0 1)).
Proof.
  apply (@construction_failure_propagates
           Scenario.script unit unit Scenario.script unit
           Scenario.new_tractor_fails Scenario.optimize (Ok tt)
           Scenario.two_steps tt tt 0%float 1%float ValueError).
  reflexivity.
Defined.

Lemma stdout_redirected_around_steps_witness :
  (exists k, 1 <= k <= 20 /\
     trace (Scenario.run_tractor Scenario.interrupted)
       = NewTractor :: StdoutToDevnull :: repeat (Optimize true) k ++ [StdoutRestored])
  /\ run_tractor Scenario.new_tractor Scenario.optimize (Raise OSError)
       Scenario.two_steps tt tt 0 1
     = ([NewTractor], Ok (Scalar nan, true)).
Proof.
  split.
  - apply (proj1 (@stdout_redirected_around_steps
                    Scenario.script unit unit Scenario.script unit
                    Scenario.new_tractor Scenario.optimize (Ok tt)
                    Scenario.interrupted tt tt 0%float 1%float Scenario.interrupted
                    eq_refl)).
    reflexivity.
  - apply (proj2 (@stdout_redirected_around_steps
                    Scenario.script unit unit Scenario.script unit
                    Scenario.new_tractor Scenario.optimize (Raise OSError)
                    Scenario.two_steps tt tt 0%float 1%float Scenario.two_steps
                    eq_refl) OSError).
    reflexivity.
Defined.

Lemma fit_fail_iff_exception_witness :
  outcome (Scenario.run_tractor Scenario.singular) = Ok (Scalar nan, true)
  /\ outcome (run_tractor Scenario.new_tractor Scenario.optimize (Raise OSError)
                Scenario.two_steps tt tt 0 1) = Ok (Scalar nan, true).
Proof.
  split.
  - apply (proj2 (@fit_fail_iff_exception
                    Scenario.script unit unit Scenario.script unit
                    Scenario.new_tractor Scenario.optimize (Ok tt)
                    Scenario.singular tt tt 0%float 1%float Scenario.singular
                    eq_refl (Scalar nan))).
    split; [reflexivity|].
    exists LinAlgError. split; [reflexivity|]. right. split; [reflexivity|].
    eapply raises_later; [reflexivity|reflexivity|].
    apply raises_now. reflexivity.
  - apply (proj2 (@fit_fail_iff_exception
                    Scenario.script unit unit Scenario.script unit
                    Scenario.new_tractor Scenario.optimize (Raise OSError)
                    Scenario.two_steps tt tt 0%float 1%float Scenario.two_steps
                    eq_refl (Scalar nan))).
    split; [reflexivity|].
    exists OSError. split; [reflexivity|]. left. reflexivity.
Defined.

Lemma fit_succeeds_iff_witness :
  outcome (Scenario.run_tractor Scenario.two_steps)
    = Ok (Array [1; 1; 4]%float, false).
Proof.
  apply (proj2 (@fit_succeeds_iff
                  Scenario.script unit unit Scenario.script unit
                  Scenario.new_tractor Scenario.optimize (Ok tt)
                  Scenario.two_steps tt tt 0%float 1%float Scenario.two_steps
                  eq_refl (Array [1; 1; 4]%float))).
  split; [reflexivity|].
  left. exists 2. split; [lia|].
  eapply converges_later; [reflexivity|reflexivity|].
  eapply converges_now; reflexivity.
Defined.

Lemma nan_improvement_runs_all_steps_witness :
  steps (trace (run_tractor Scenario.new_counter Scenario.optimize_nan (Ok tt)
                  tt tt tt 0 1)) = 20
  /\ outcome (run_tractor Scenario.new_counter Scenario.optimize_nan (Ok tt)
                tt tt tt 0 1)
     = Ok (Array (repeat 1%float 20), false).
Proof.
  apply (@nan_improvement_runs_all_steps
           unit unit unit nat unit
           Scenario.new_counter Scenario.optimize_nan (Ok tt)
           tt tt tt 0%float 1%float 0
           (fun _ => tt) (fun _ => tt)
           (fun t => Array (repeat 1%float (S t))) S);
    reflexivity.
Defined.

Lemma failed_fit_reads_as_nan_witness :
  exists flux_var fit_fail,
    outcome (Scenario.run_tractor Scenario.singular) = Ok (flux_var, fit_fail)
    /\ Results.interpret_tractor_results flux_var 1 fit_fail Scenario.two_sources 1
       = ([], Ok (nan, nan)).
Proof.
  apply (@failed_fit_reads_as_nan
           Scenario.script unit unit Scenario.script unit
           Scenario.new_tractor Scenario.optimize (Ok tt)
           Scenario.singular tt tt 0%float 1%float Scenario.singular LinAlgError).
  - reflexivity.
  - right. split; [reflexivity|].
    eapply raises_later; [reflexivity|reflexivity|].
    apply raises_now. reflexivity.
  - reflexivity.
Defined.

End FitMoreScenarios.

(* ================================================================== *)
(** * Further properties of the cutouts *)

Section CutoutsMore.

Import Cutouts.

Variables HDU Wcs Cutout Offset Sources SType Catalog : Type.
Variable fits_open : string -> result HDU.
Variable WCS : HDU -> result Wcs.
Variable extract_cutout :
  float -> float -> Z -> float -> HDU -> Wcs ->
  result (Cutout * bool * Offset * Offset * Wcs).
Variable find_nconfsources :
  float -> float -> SType -> float -> Offset -> Offset -> Z -> Wcs -> Catalog ->
  result (Sources * Z).
Variable sigma_clipped_stats : Cutout -> float -> result (float * float * float).

Local Abbreviation make_cutouts := (make_cutouts fits_open WCS extract_cutout).
Local Abbreviation setup_for_tractor :=
  (setup_for_tractor fits_open WCS extract_cutout find_nconfsources sigma_clipped_stats).

Variables (ra dec : float) (imgfile skybgfile : string).
Variables (width : Z) (scale : float).

(** The call up to the science extraction, when one of its three steps
    raises. *)
Lemma make_cutouts_before_science :
  match fits_open imgfile with
  | Raise e =>
      make_cutouts ra dec (imgfile, skybgfile) width scale = ([FitsOpen imgfile], Raise e)
  | Ok hdu =>
      match WCS hdu with
      | Raise e =>
          make_cutouts ra dec (imgfile, skybgfile) width scale
            = ([FitsOpen imgfile; ReadWCS hdu], Raise e)
      | Ok wcs =>
          match extract_cutout ra dec width scale hdu wcs with
          | Raise e =>
              make_cutouts ra dec (imgfile, skybgfile) width scale
                = ([FitsOpen imgfile; ReadWCS hdu; ExtractCutout hdu wcs], Raise e)
          | Ok _ => True
          end
      end
  end.
Proof.
  unfold Cutouts.make_cutouts. cbn [bind lift emit].
  destruct (fits_open imgfile) as [hdu|e]; [|reflexivity].
  cbn [bind lift emit app].
  destruct (WCS hdu) as [wcs|e]; [|reflexivity].
  cbn [bind lift emit app].
  destruct (extract_cutout ra dec width scale hdu wcs); [exact I|reflexivity].
Qed.

(** X12. When the science file cannot be opened, the exception of
    [fits.open] reaches the caller at once: no WCS is read, nothing is
    extracted and the background file is not opened. *)
Theorem science_open_failure_propagates (e : exn)
    (Hopen : fits_open imgfile = Raise e) :
  make_cutouts ra dec (imgfile, skybgfile) width scale = ([FitsOpen imgfile], Raise e).
Proof.
  pose proof make_cutouts_before_science as Hpre. now rewrite Hopen in Hpre.
Qed.

(** X13. Whatever the collaborators do, one call opens at most two files,
    reads at most one WCS and extracts at most two cutouts; with equal paths
    it opens at most one file and extracts at most one cutout. *)
Theorem make_cutouts_call_bounds :
  let t := trace (make_cutouts ra dec (imgfile, skybgfile) width scale) in
  opens t <= 2 /\ wcs_reads t <= 1 /\ extractions t <= 2
  /\ (skybgfile = imgfile -> opens t <= 1 /\ extractions t <= 1).
Proof.
  cbv zeta. pose proof make_cutouts_before_science as Hpre.
  destruct (fits_open imgfile) as [hdu|e] eqn:Hopen.
  2:{ rewrite Hpre. cbn. repeat split; intros; lia. }
  destruct (WCS hdu) as [wcs|e] eqn:Hwcs.
  2:{ rewrite Hpre. cbn. repeat split; intros; lia. }
  destruct (extract_cutout ra dec width scale hdu wcs)
    as [[[[[sub nodata] x1] y1] sub_wcs]|e] eqn:Hsci.
  2:{ rewrite Hpre. cbn. repeat split; intros; lia. }
  clear Hpre.
  rewrite (make_cutouts_after_science _ _ _ _ _ _ _ _ _ Hopen Hwcs Hsci). cbv zeta.
  destruct nodata; [cbn; repeat split; intros; lia|].
  destruct (String.eqb skybgfile imgfile) eqn:Hsame; [cbn; repeat split; intros; lia|].
  apply String.eqb_neq in Hsame.
  destruct (fits_open skybgfile); cbn; repeat split; intros; try lia; congruence.
Qed.

(** X14. [make_cutouts] ends in the exception [e] exactly when one of the
    calls it makes raises [e], every call before it having returned and
    reported data, or when [e] is [CutoutError] and the science extraction,
    or for distinct paths the background extraction, reports no data.  The
    calls are, in order: opening the science file, reading its WCS,
    extracting the science cutout and, for distinct paths, opening the
    background file and extracting the background cutout with the science
    WCS. *)
Theorem make_cutouts_exceptions (e : exn) :
  outcome (make_cutouts ra dec (imgfile, skybgfile) width scale) = Raise e
  <->
  fits_open imgfile = Raise e
  \/ exists hdu,
       fits_open imgfile = Ok hdu /\
       (WCS hdu = Raise e
        \/ exists wcs,
             WCS hdu = Ok wcs /\
             (extract_cutout ra dec width scale hdu wcs = Raise e
              \/ exists sub nodata x1 y1 sub_wcs,
                   extract_cutout ra dec width scale hdu wcs
                     = Ok (sub, nodata, x1, y1, sub_wcs) /\
                   ((nodata = true /\ e = CutoutError)
                    \/ (nodata = false /\ skybgfile <> imgfile /\
                        (fits_open skybgfile = Raise e
                         \/ exists bkg,
                              fits_open skybgfile = Ok bkg /\
                              (extract_cutout ra dec width scale bkg wcs = Raise e
                               \/ exists bgsub bgx1 bgy1 bg_wcs,
                                    extract_cutout ra dec width scale bkg wcs
                                      = Ok (bgsub, true, bgx1, bgy1, bg_wcs) /\
                                    e = CutoutError)))))).
Proof.
  pose proof make_cutouts_before_science as Hpre.
  destruct (fits_open imgfile) as [hdu|e0] eqn:Hopen.
  2:{ rewrite Hpre. cbn [outcome snd]. split.
      - intros [= ->]. now left.
      - intros [[= ->]|(hdu & Hhdu & _)]; [reflexivity|discriminate]. }
  destruct (WCS hdu) as [wcs|e0] eqn:Hwcs.
  2:{ rewrite Hpre. cbn [outcome snd]. split.
      - intros [= ->]. right. exists hdu. split; [reflexivity|]. now left.
      - intros [Habs|(hdu' & [= <-] & [Hw|(wcs & Hw & _)])];
          [discriminate| |]; rewrite Hwcs in Hw; [now injection Hw as ->|discriminate]. }
  destruct (extract_cutout ra dec width scale hdu wcs)
    as [[[[[sub nodata] x1] y1] sub_wcs]|e0] eqn:Hsci.
  2:{ rewrite Hpre. cbn [outcome snd]. split.
      - intros [= ->]. right. exists hdu. split; [reflexivity|].
        right. exists wcs. split; [exact Hwcs|]. now left.
      - intros [Habs|(hdu' & [= <-] & [Hw|(wcs' & Hw & Hrest)])]; [discriminate| |].
        + rewrite Hwcs in Hw. discriminate.
        + rewrite Hwcs in Hw. injection Hw as <-.
          destruct Hrest as [Hx|(sub & nodata & x1 & y1 & sw & Hx & _)];
            rewrite Hsci in Hx; [now injection Hx as ->|discriminate]. }
  clear Hpre.
  rewrite (make_cutouts_after_science _ _ _ _ _ _ _ _ _ Hopen Hwcs Hsci). cbv zeta.
  split.
  - intros Hraise.
    right. exists hdu. split; [reflexivity|].
    right. exists wcs. split; [exact Hwcs|].
    right. exists sub, nodata, x1, y1, sub_wcs. split; [exact Hsci|].
    destruct nodata.
    { left. split; [reflexivity|]. now injection Hraise as <-. }
    right. split; [reflexivity|].
    destruct (String.eqb skybgfile imgfile) eqn:Hsame; [discriminate|].
    apply String.eqb_neq in Hsame. split; [exact Hsame|].
    destruct (fits_open skybgfile) as [bkg|e0] eqn:Hbopen.
    2:{ left. now injection Hraise as ->. }
    right. exists bkg. split; [reflexivity|].
    cbn [outcome snd] in Hraise.
    destruct (extract_cutout ra dec width scale bkg wcs)
      as [[[[[bgsub bgnodata] bx] by_] bw]|e0] eqn:Hbg.
    2:{ left. now injection Hraise as ->. }
    right. destruct bgnodata; [|discriminate].
    exists bgsub, bx, by_, bw. split; [reflexivity|]. now injection Hraise as <-.
  - intros [Habs|(hdu' & [= <-] & [Hw|(wcs' & Hw & Hrest)])]; [discriminate| |].
    { rewrite Hwcs in Hw. discriminate. }
    rewrite Hwcs in Hw. injection Hw as <-.
    destruct Hrest as [Hx|(sub' & nodata' & x1' & y1' & sw' & Hx & Hcases)];
      rewrite Hsci in Hx; [discriminate|].
    injection Hx as <- <- <- <- <-.
    destruct Hcases as [[-> ->]|(-> & Hdiff & Hbkg)]; [reflexivity|].
    apply String.eqb_neq in Hdiff. rewrite Hdiff.
    destruct Hbkg as [Hb|(bkg & Hb & Hext)]; rewrite Hb; [reflexivity|].
    cbn [outcome snd].
    destruct Hext as [Hx|(bgsub & bx & by_ & bw & Hx & ->)]; now rewrite Hx.
Qed.

(** X15. Skipping the background extraction for equal paths changes the
    calls made, not the result: a background path that opens to the same
    HDU as the science path gives the outcome of the call with the science
    path given twice. *)
Theorem same_hdu_same_outcome
    (Hsame : fits_open skybgfile = fits_open imgfile) :
  outcome (make_cutouts ra dec (imgfile, skybgfile) width scale)
    = outcome (make_cutouts ra dec (imgfile, imgfile) width scale).
Proof.
  destruct (String.eqb skybgfile imgfile) eqn:Hpath.
  { apply String.eqb_eq in Hpath. now subst skybgfile. }
  pose proof make_cutouts_before_science as Hpre.
  destruct (fits_open imgfile) as [hdu|e] eqn:Hopen.
  2:{ rewrite Hpre. unfold Cutouts.make_cutouts. cbn [bind lift emit].
      now rewrite Hopen. }
  destruct (WCS hdu) as [wcs|e] eqn:Hwcs.
  2:{ rewrite Hpre. unfold Cutouts.make_cutouts. cbn [bind lift emit].
      rewrite Hopen. cbn [bind lift emit app]. now rewrite Hwcs. }
  destruct (extract_cutout ra dec width scale hdu wcs)
    as [[[[[sub nodata] x1] y1] sub_wcs]|e] eqn:Hsci.
  2:{ rewrite Hpre. unfold Cutouts.make_cutouts. cbn [bind lift emit].
      rewrite Hopen. cbn [bind lift emit app]. rewrite Hwcs.
      cbn [bind lift emit app]. now rewrite Hsci. }
  clear Hpre.
  rewrite (make_cutouts_after_science _ _ _ _ _ _ _ _ _ Hopen Hwcs Hsci).
  rewrite (make_cutouts_after_science fits_open WCS extract_cutout
             ra dec imgfile imgfile width scale Hopen Hwcs Hsci).
  cbv zeta. rewrite Hpath, String.eqb_refl, Hsame.
  destruct nodata; [reflexivity|].
  cbn [outcome snd]. now rewrite Hsci.
Qed.

End CutoutsMore.

Section SetupMore.

Import Cutouts.

Variables HDU Wcs Cutout Offset Sources SType Catalog : Type.
Variable fits_open : string -> result HDU.
Variable WCS : HDU -> result Wcs.
Variable extract_cutout :
  float -> float -> Z -> float -> HDU -> Wcs ->
  result (Cutout * bool * Offset * Offset * Wcs).
Variable find_nconfsources :
  float -> float -> SType -> float -> Offset -> Offset -> Z -> Wcs -> Catalog ->
  result (Sources * Z).
Variable sigma_clipped_stats : Cutout -> float -> result (float * float * float).

Local Abbreviation make_cutouts := (make_cutouts fits_open WCS extract_cutout).
Local Abbreviation setup_for_tractor :=
  (setup_for_tractor fits_open WCS extract_cutout find_nconfsources sigma_clipped_stats).

Variables (band_configs : BandConfigs) (ra dec : float) (stype : SType).
Variables (ks_flux_aper2 : float) (infiles : string * string) (df : Catalog).

(** [setup_for_tractor] once the cutouts are made. *)
Lemma setup_after_cutouts t0 subimage x1 y1 subimage_wcs bgsubimage :
  make_cutouts ra dec infiles (cutout_width band_configs) (mosaic_pix_scale band_configs)
    = (t0, Ok (subimage, x1, y1, subimage_wcs, bgsubimage)) ->
  setup_for_tractor band_configs ra dec stype ks_flux_aper2 infiles df =
    match find_nconfsources ra dec stype ks_flux_aper2 x1 y1
            (cutout_width band_configs) subimage_wcs df with
    | Raise e => (t0 ++ [FindNconfsources], Raise e)
    | Ok (objsrc, nconfsrcs) =>
        (t0 ++ [FindNconfsources; SigmaClippedStats bgsubimage],
         match sigma_clipped_stats bgsubimage 3 with
         | Raise e => Raise e
         | Ok (skymean, _, skynoise) =>
             Ok (subimage, objsrc, nconfsrcs, skymean, skynoise)
         end)
    end.
Proof.
  intros Hcut. unfold Cutouts.setup_for_tractor. rewrite Hcut.
  cbn [bind lift emit ret app].
  destruct (find_nconfsources _ _ _ _ _ _ _ _ _) as [[objsrc nconfsrcs]|e];
    [|reflexivity].
  cbn [bind lift emit ret app].
  destruct (sigma_clipped_stats bgsubimage 3) as [[[skymean skymedian] skynoise]|e];
    cbn [bind lift emit ret app]; rewrite ?app_nil_r; reflexivity.
Qed.

(** X16. [setup_for_tractor] returns exactly when [make_cutouts], the source
    finder and the sky statistics all return.  The source finder is given the
    offsets and the local WCS of the science cutout; the statistics are taken
    on the background cutout with [sigma = 3.0]; the science cutout, the
    sources, their count, the sky mean and the sky noise are returned, the
    median is not. *)
Theorem setup_for_tractor_returns_iff t r :
  setup_for_tractor band_configs ra dec stype ks_flux_aper2 infiles df = (t, Ok r)
  <->
  exists t0 subimage x1 y1 subimage_wcs bgsubimage objsrc nconfsrcs
         skymean skymedian skynoise,
    make_cutouts ra dec infiles (cutout_width band_configs) (mosaic_pix_scale band_configs)
      = (t0, Ok (subimage, x1, y1, subimage_wcs, bgsubimage)) /\
    find_nconfsources ra dec stype ks_flux_aper2 x1 y1
      (cutout_width band_configs) subimage_wcs df = Ok (objsrc, nconfsrcs) /\
    sigma_clipped_stats bgsubimage 3 = Ok (skymean, skymedian, skynoise) /\
    r = (subimage, objsrc, nconfsrcs, skymean, skynoise) /\
    t = t0 ++ [FindNconfsources; SigmaClippedStats bgsubimage].
Proof.
  split.
  - destruct (make_cutouts ra dec infiles (cutout_width band_configs)
                (mosaic_pix_scale band_configs))
      as [t0 [[[[[subimage x1] y1] subimage_wcs] bgsubimage]|e]] eqn:Hcut.
    2:{ unfold Cutouts.setup_for_tractor. rewrite Hcut. discriminate. }
    rewrite (setup_after_cutouts Hcut).
    destruct (find_nconfsources ra dec stype ks_flux_aper2 x1 y1
                (cutout_width band_configs) subimage_wcs df)
      as [[objsrc nconfsrcs]|e] eqn:Hfind; [|discriminate].
    destruct (sigma_clipped_stats bgsubimage 3)
      as [[[skymean skymedian] skynoise]|e] eqn:Hstats; [|discriminate].
    intros [= <- <-].
    exists t0, subimage, x1, y1, subimage_wcs, bgsubimage, objsrc, nconfsrcs,
           skymean, skymedian, skynoise.
    repeat split; assumption.
  - intros (t0 & subimage & x1 & y1 & subimage_wcs & bgsubimage & objsrc & nconfsrcs
            & skymean & skymedian & skynoise & Hcut & Hfind & Hstats & -> & ->).
    rewrite (setup_after_cutouts Hcut), Hfind, Hstats. reflexivity.
Qed.

(** X17. When the source finder raises, its exception leaves
    [setup_for_tractor] and the sky statistics are never computed. *)
Theorem source_finder_failure_propagates
    t0 subimage x1 y1 subimage_wcs bgsubimage e
    (Hcut : make_cutouts ra dec infiles
              (cutout_width band_configs) (mosaic_pix_scale band_configs)
            = (t0, Ok (subimage, x1, y1, subimage_wcs, bgsubimage)))
    (Hfind : find_nconfsources ra dec stype ks_flux_aper2 x1 y1
               (cutout_width band_configs) subimage_wcs df = Raise e) :
  setup_for_tractor band_configs ra dec stype ks_flux_aper2 infiles df
    = (t0 ++ [FindNconfsources], Raise e).
Proof.
  now rewrite (setup_after_cutouts Hcut), Hfind.
Qed.

End SetupMore.

Section SetupSameFile.

Import Cutouts.

Variables HDU Wcs Cutout Offset Sources SType Catalog : Type.
Variable fits_open : string -> result HDU.
Variable WCS : HDU -> result Wcs.
Variable extract_cutout :
  float -> float -> Z -> float -> HDU -> Wcs ->
  result (Cutout * bool * Offset * Offset * Wcs).
Variable find_nconfsources :
  float -> float -> SType -> float -> Offset -> Offset -> Z -> Wcs -> Catalog ->
  result (Sources * Z).
Variable sigma_clipped_stats : Cutout -> float -> result (float * float * float).

(** X18. With one file given as both the science and the background image,
    the sky mean and the sky noise that [setup_for_tractor] returns are the
    sigma-clipped statistics of the science cutout itself, taken after the
    source finder has run; the file is opened and cut once. *)
Theorem same_file_sky_from_science_cutout
    (band_configs : BandConfigs) (ra dec : float) (stype : SType)
    (ks_flux_aper2 : float) (imgfile : string) (df : Catalog)
    hdu wcs subimage x1 y1 subimage_wcs objsrc nconfsrcs skymean skymedian skynoise
    (Hopen : fits_open imgfile = Ok hdu)
    (Hwcs : WCS hdu = Ok wcs)
    (Hsci : extract_cutout ra dec (cutout_width band_configs)
              (mosaic_pix_scale band_configs) hdu wcs
            = Ok (subimage, false, x1, y1, subimage_wcs))
    (Hfind : find_nconfsources ra dec stype ks_flux_aper2 x1 y1
               (cutout_width band_configs) subimage_wcs df = Ok (objsrc, nconfsrcs))
    (Hstats : sigma_clipped_stats subimage 3 = Ok (skymean, skymedian, skynoise)) :
  setup_for_tractor fits_open WCS extract_cutout find_nconfsources sigma_clipped_stats
    band_configs ra dec stype ks_flux_aper2 (imgfile, imgfile) df
  = ([FitsOpen imgfile; ReadWCS hdu; ExtractCutout hdu wcs;
      FindNconfsources; SigmaClippedStats subimage],
     Ok (subimage, objsrc, nconfsrcs, skymean, skynoise)).
Proof.
  pose proof (make_cutouts_after_science fits_open WCS extract_cutout
                ra dec imgfile imgfile (cutout_width band_configs)
                (mosaic_pix_scale band_configs) Hopen Hwcs Hsci) as Hcut.
  cbv zeta in Hcut. rewrite String.eqb_refl in Hcut.
  rewrite (setup_after_cutouts fits_open WCS extract_cutout find_nconfsources
             sigma_clipped_stats band_configs ra dec stype ks_flux_aper2
             (imgfile, imgfile) df Hcut).
  now rewrite Hfind, Hstats.
Qed.

End SetupSameFile.

Section CutoutsMoreScenarios.

Import Cutouts.
Local Open Scope string_scope.

Lemma science_open_failure_propagates_witness :
  Scenario.make_cutouts 1 2 ("missing.fits", "bkg.fits") 10 0.5
    = ([FitsOpen "missing.fits"], Raise OSError).
Proof.
  apply (@science_open_failure_propagates
           string string (string * string) Z
           Scenario.fits_open Scenario.WCS Scenario.extract_cutout
           1%float 2%float "missing.fits" "bkg.fits" 10%Z 0.5%float OSError).
  reflexivity.
Defined.

Lemma make_cutouts_exceptions_witness :
  outcome (Scenario.make_cutouts 1 2 ("sci.fits", "missing.fits") 10 0.5)
    = Raise OSError
  /\ outcome (Scenario.make_cutouts 1 2 ("sci.fits", "offframe.fits") 10 0.5)
    = Raise CutoutError.
Proof.
  split.
  - apply (proj2 (@make_cutouts_exceptions
                    string string (string * string) Z
                    Scenario.fits_open Scenario.WCS Scenario.extract_cutout
                    1%float 2%float "sci.fits" "missing.fits" 10%Z 0.5%float OSError)).
    right. exists "sci.fits". split; [reflexivity|].
    right. exists "sci.fits". split; [reflexivity|].
    right. exists ("sci.fits", "sci.fits"), false, 8%Z, 10%Z, "sci.fits".
    split; [reflexivity|].
    right. split; [reflexivity|]. split; [discriminate|].
    left. reflexivity.
  - apply (proj2 (@make_cutouts_exceptions
                    string string (string * string) Z
                    Scenario.fits_open Scenario.WCS Scenario.extract_cutout
                    1%float 2%float "sci.fits" "offframe.fits" 10%Z 0.5%float
                    CutoutError)).
    right. exists "sci.fits". split; [reflexivity|].
    right. exists "sci.fits". split; [reflexivity|].
    right. exists ("sci.fits", "sci.fits"), false, 8%Z, 10%Z, "sci.fits".
    split; [reflexivity|].
    right. split; [reflexivity|]. split; [discriminate|].
    right. exists "offframe.fits". split; [reflexivity|].
    right. exists ("offframe.fits", "sci.fits"), 13%Z, 10%Z, "sci.fits".
    split; reflexivity.
Defined.

Lemma same_hdu_same_outcome_witness :
  outcome (make_cutouts (Offset:=Z) Scenario.fits_open_linked Scenario.WCS
             Scenario.extract_cutout 1 2 ("sci.fits", "link.fits") 10 0.5)
    = outcome (make_cutouts (Offset:=Z) Scenario.fits_open_linked Scenario.WCS
                 Scenario.extract_cutout 1 2 ("sci.fits", "sci.fits") 10 0.5).
Proof.
  apply (@same_hdu_same_outcome
           string string (string * string) Z
           Scenario.fits_open_linked Scenario.WCS Scenario.extract_cutout
           1%float 2%float "sci.fits" "link.fits" 10%Z 0.5%float).
  reflexivity.
Defined.

Lemma setup_for_tractor_returns_iff_witness :
  Scenario.setup_for_tractor Scenario.irac 1 2 tt 3 ("sci.fits", "bkg.fits") tt
    = ([FitsOpen "sci.fits"; ReadWCS "sci.fits"; ExtractCutout "sci.fits" "sci.fits";
        FitsOpen "bkg.fits"; ExtractCutout "bkg.fits" "sci.fits";
        FindNconfsources; SigmaClippedStats ("bkg.fits", "sci.fits")],
       Ok (("sci.fits", "sci.fits"), [Scenario.point_source 30 30 3], 0%Z,
           0%float, 1%float)).
Proof.
  apply (proj2 (@setup_for_tractor_returns_iff
                  string string (string * string) Z (list Results.Source) unit unit
                  Scenario.fits_open Scenario.WCS Scenario.extract_cutout
                  Scenario.find_nconfsources Scenario.sigma_clipped_stats
                  Scenario.irac 1%float 2%float tt 3%float ("sci.fits", "bkg.fits") tt
                  _ _)).
  exists [FitsOpen "sci.fits"; ReadWCS "sci.fits"; ExtractCutout "sci.fits" "sci.fits";
          FitsOpen "bkg.fits"; ExtractCutout "bkg.fits" "sci.fits"],
         ("sci.fits", "sci.fits"), 8%Z, 10%Z, "sci.fits", ("bkg.fits", "sci.fits"),
         [Scenario.point_source 30 30 3], 0%Z, 0%float, 0%float, 1%float.
  repeat split; reflexivity.
Defined.

Lemma source_finder_failure_propagates_witness :
  setup_for_tractor Scenario.fits_open Scenario.WCS Scenario.extract_cutout
    Scenario.find_nconfsources_fails Scenario.sigma_clipped_stats
    Scenario.irac 1 2 tt 3 ("sci.fits", "sci.fits") tt
  = (([FitsOpen "sci.fits"; ReadWCS "sci.fits"; ExtractCutout "sci.fits" "sci.fits"]
        ++ [FindNconfsources])%list,
     Raise RuntimeError).
Proof.
  apply (@source_finder_failure_propagates
           string string (string * string) Z (list Results.Source) unit unit
           Scenario.fits_open Scenario.WCS Scenario.extract_cutout
           Scenario.find_nconfsources_fails Scenario.sigma_clipped_stats
           Scenario.irac 1%float 2%float tt 3%float ("sci.fits", "sci.fits") tt
           [FitsOpen "sci.fits"; ReadWCS "sci.fits"; ExtractCutout "sci.fits" "sci.fits"]
           ("sci.fits", "sci.fits") 8%Z 10%Z "sci.fits" ("sci.fits", "sci.fits")
           RuntimeError);
    reflexivity.
Defined.

Lemma same_file_sky_from_science_cutout_witness :
  Scenario.setup_for_tractor Scenario.irac 1 2 tt 3 ("sci.fits", "sci.fits") tt
    = ([FitsOpen "sci.fits"; ReadWCS "sci.fits"; ExtractCutout "sci.fits" "sci.fits";
        FindNconfsources; SigmaClippedStats ("sci.fits", "sci.fits")],
       Ok (("sci.fits", "sci.fits"), [Scenario.point_source 30 30 3], 0%Z,
           0%float, 1%float)).
Proof.
  apply (@same_file_sky_from_science_cutout
           string string (string * string) Z (list Results.Source) unit unit
           Scenario.fits_open Scenario.WCS Scenario.extract_cutout
           Scenario.find_nconfsources Scenario.sigma_clipped_stats
           Scenario.irac 1%float 2%float tt 3%float "sci.fits" tt
           "sci.fits" "sci.fits" ("sci.fits", "sci.fits") 8%Z 10%Z "sci.fits"
           [Scenario.point_source 30 30 3] 0%Z 0%float 0%float 1%float);
    reflexivity.
Defined.

End CutoutsMoreScenarios.
